(** * lb_haproxy: the configuration-application sequence of [main.go]

    A shallow embedding of [main.go] and the properties of its
    reconciliation sequence: connectivity probe, per-server registration
    with bounded retry, algorithm application, retry-policy application.

    The HAProxy client library ([github.com/haproxytech/client-go]) and the
    file system are external: a run is a function of an environment [Env]
    that decides the outcome of every library call from the calls issued
    before it, and of what [loadConfig] finds on disk.  Every call, every
    line printed and every fatal log is recorded, in order, in a trace. *)

From Stdlib Require Import ZArith List String Ascii Bool Lia.
From Stdlib Require Import DecimalString DecimalPos DecimalZ.
Import ListNotations.

#[local] Set Warnings "-register-all".
Local Open Scope string_scope.
Local Open Scope Z_scope.
Local Open Scope list_scope.

(* ===================================================================== *)
(** ** Go values *)

(** Go's [int] and [int64] are modelled as [Z]: the program performs no
    arithmetic on configuration integers, and the loop counter of
    [addServerWithRetry] stays below its bound, so nothing wraps around. *)

(** [fmt.Sprintf("%d", n)]: an optional minus sign and the decimal digits. *)
Definition Sprintf_d (n : Z) : string :=
  NilZero.string_of_int (Z.to_int n).

(** A non-nil Go [error].  [ClientError] stands for whatever the client
    library, the file system or the JSON decoder return; the other
    constructors are the [fmt.Errorf] sites of [main.go], each holding the
    arguments of its format string, the last one being the operand of [%w]
    (a possibly nil [error]). *)
Inductive error : Type :=
| ClientError (msg : string)
| ErrConnect (cause : option error)                     (* main.go:104 *)
| ErrAddServer (name : string) (cause : option error)   (* main.go:120 *)
| ErrRetries (retries : Z) (cause : option error)       (* main.go:128 *)
| ErrRedispatch (cause : option error).                 (* main.go:140 *)

(** A Go value of interface type [error]: [None] is [nil]. *)
Definition goerror : Type := option error.

(* ===================================================================== *)
(** ** The configuration (main.go:15-44) *)

Record BackendConfig : Type := {
  Name : string;
  IP : string;
  Port : Z;
  Weight : Z
}.

Record HealthCheckConfig : Type := {
  Enabled : bool;
  Interval : Z;
  Fall : Z;
  Rise : Z
}.

Record RetryPolicyConfig : Type := {
  Retries : Z;
  Redispatch : bool
}.

Record Config : Type := {
  HaproxyEndpoint : string;
  APIKey : string;
  LoadBalancingAlgorithm : string;
  Backends : list BackendConfig;
  HealthCheck : HealthCheckConfig;
  RetryPolicy : RetryPolicyConfig
}.

(* ===================================================================== *)
(** ** The client library's types, as [main.go] uses them *)

Module haproxy.

(** [haproxy.HAProxy], built at main.go:96-99. *)
Record HAProxy : Type := {
  Endpoint : string;
  ApiKey : string
}.

(** [haproxy.Server], with the fields main.go:61-72 assigns.  The library
    is not part of the repository; the types of the fields are those of the
    values assigned to them: [Weight] receives an [int64], [Check] a [bool],
    [Inter] the [string] that [fmt.Sprintf] returns, [Fall] and [Rise]
    variables of type [int].  A Go struct value holds every field of its
    type: a field that a composite literal does not mention holds the zero
    value of its type, [""] for a string and 0 for an integer. *)
Record Server : Type := {
  Name : string;
  IP : string;
  Port : Z;
  Weight : Z;
  Check : bool;
  Inter : string;
  Fall : Z;
  Rise : Z
}.

Definition with_health (s : Server) (inter : string) (fall rise : Z) : Server :=
  {| Name := Name s; IP := IP s; Port := Port s; Weight := Weight s;
     Check := Check s; Inter := inter; Fall := fall; Rise := rise |}.

End haproxy.

(* ===================================================================== *)
(** ** Observable events *)

(** The four methods of the client that [main.go] calls, with receiver.
    [AddServer] receives a pointer to the local copy of the server that
    [addServerWithRetry] holds; the library is taken not to write through
    it, so every attempt passes the same server value. *)
Inductive Call : Type :=
| Ping (client : haproxy.HAProxy)
| AddServer (client : haproxy.HAProxy) (server : haproxy.Server)
| SetLoadBalancingAlgorithm (client : haproxy.HAProxy) (algorithm : string)
| SetConfig (client : haproxy.HAProxy) (key value : string).

(** The four [log.Fatalf] sites of [main]. *)
Inductive FatalSite : Type :=
| FatalLoadConfig         (* main.go:50 *)
| FatalClientInit         (* main.go:56 *)
| FatalAlgorithm          (* main.go:83 *)
| FatalRetryPolicy.       (* main.go:90 *)

(** What the program writes, one constructor per print statement, holding
    the arguments of its format string. *)
Inductive Output : Type :=
| PrintServerAdded (name : string)                                   (* main.go:115 *)
| PrintAddFailed (name : string) (attempt retries : Z) (err : error) (* main.go:118 *)
| LogAddFinallyFailed (name : string) (err : error)                  (* main.go:76 *)
| PrintAlgorithmSet (algorithm : string)                             (* main.go:85 *)
| PrintRetryPolicySet (retries : Z) (redispatch : bool)              (* main.go:143 *)
| LogFatal (site : FatalSite) (err : error).

Inductive Event : Type :=
| Called (c : Call) (result : goerror)
| Printed (o : Output).

Definition Trace : Type := list Event.

(** The library calls of a trace, oldest first. *)
Fixpoint calls_of (t : Trace) : list Call :=
  match t with
  | [] => []
  | Called c _ :: t' => c :: calls_of t'
  | Printed _ :: t' => calls_of t'
  end.

(** What the program printed, oldest first. *)
Fixpoint outputs_of (t : Trace) : list Output :=
  match t with
  | [] => []
  | Called _ _ :: t' => outputs_of t'
  | Printed o :: t' => o :: outputs_of t'
  end.

Definition is_AddServer (c : Call) : bool :=
  match c with AddServer _ _ => true | _ => false end.

Definition is_SetConfig (c : Call) : bool :=
  match c with SetConfig _ _ _ => true | _ => false end.

Definition is_SetLoadBalancingAlgorithm (c : Call) : bool :=
  match c with SetLoadBalancingAlgorithm _ _ => true | _ => false end.

(* ===================================================================== *)
(** ** The environment and the monad of runs *)

(** [remote history c] is the outcome of call [c] when [history] are the
    calls issued so far ([None]: the call succeeded).  [config_file name]
    is what opening, reading and decoding the file [name] gives. *)
Record Env : Type := {
  remote : list Call -> Call -> goerror;
  config_file : string -> Config + error
}.

(** A computation either returns a value or ends the process
    ([log.Fatalf] calls [os.Exit(1)]). *)
Inductive Result (A : Type) : Type :=
| Returned (a : A)
| Exited (code : Z).
Arguments Returned {A} a.
Arguments Exited {A} code.

Definition M (A : Type) : Type := Env -> Trace -> Result A * Trace.

Definition ret {A : Type} (a : A) : M A :=
  fun _ t => (Returned a, t).

Definition bind {A B : Type} (m : M A) (k : A -> M B) : M B :=
  fun env t =>
    match m env t with
    | (Returned a, t') => k a env t'
    | (Exited code, t') => (Exited code, t')
    end.

Notation "x <- m ;; k" := (bind m (fun x => k))
  (at level 61, m at next level, right associativity).
Notation "m ;;; k" := (bind m (fun _ => k))
  (at level 61, right associativity).

(** One call of a client method: ask the environment, record the call. *)
Definition call (c : Call) : M goerror :=
  fun env t =>
    let r := remote env (calls_of t) c in
    (Returned r, t ++ [Called c r]).

(** [fmt.Printf] and [log.Printf]. *)
Definition print (o : Output) : M unit :=
  fun _ t => (Returned tt, t ++ [Printed o]).

(** [log.Fatalf]: print, then exit with status 1. *)
Definition log_Fatalf {A : Type} (site : FatalSite) (err : error) : M A :=
  fun _ t => (Exited 1, t ++ [Printed (LogFatal site err)]).

(* ===================================================================== *)
(** ** The functions of main.go *)

(** main.go:148-165.  The file system and the JSON decoder are the
    environment's: the function returns [(&config, nil)] or [(nil, err)]. *)
Definition loadConfig (filename : string) : M (Config + error) :=
  fun env t => (Returned (config_file env filename), t).

(** main.go:95-107. *)
Definition newHAProxyClient (endpoint apiKey : string)
  : M (haproxy.HAProxy + error) :=
  let client := {| haproxy.Endpoint := endpoint; haproxy.ApiKey := apiKey |} in
  err <- call (Ping client) ;;
  match err with
  | Some e => ret (inr (ErrConnect (Some e)))
  | None => ret (inl client)
  end.

(** The loop of main.go:112-119.  [remaining] counts the values of [i] that
    still satisfy [i < retries], so that [i = retries - remaining]; [err] is
    the variable declared at main.go:111.  The result is [inl r] when the
    body returned [r], and [inr err] when the loop ran to its end. *)
Fixpoint addServer_loop (client : haproxy.HAProxy) (server : haproxy.Server)
    (retries : Z) (remaining : nat) (err : goerror) : M (goerror + goerror) :=
  match remaining with
  | O => ret (inr err)
  | S remaining' =>
      let i := retries - Z.of_nat remaining in
      err' <- call (AddServer client server) ;;
      match err' with
      | None =>
          print (PrintServerAdded (haproxy.Name server)) ;;;
          ret (inl None)
      | Some e =>
          print (PrintAddFailed (haproxy.Name server) (i + 1) retries e) ;;;
          addServer_loop client server retries remaining' err'
      end
  end.

(** main.go:110-121. *)
Definition addServerWithRetry (client : haproxy.HAProxy)
    (server : haproxy.Server) (retries : Z) : M goerror :=
  r <- addServer_loop client server retries (Z.to_nat retries) None ;;
  match r with
  | inl returned => ret returned
  | inr err => ret (Some (ErrAddServer (haproxy.Name server) err))
  end.

(** main.go:124-145. *)
Definition setRetryPolicy (client : haproxy.HAProxy) (rp : RetryPolicyConfig)
  : M goerror :=
  err <- call (SetConfig client "retries" (Sprintf_d (Retries rp))) ;;
  match err with
  | Some e => ret (Some (ErrRetries (Retries rp) (Some e)))
  | None =>
      let redispatchVal := if Redispatch rp then "on" else "off" in
      err <- call (SetConfig client "option redispatch" redispatchVal) ;;
      match err with
      | Some e => ret (Some (ErrRedispatch (Some e)))
      | None =>
          print (PrintRetryPolicySet (Retries rp) (Redispatch rp)) ;;;
          ret None
      end
  end.

(** The server value built at main.go:61-73 for one backend. *)
Definition server_of (config : Config) (backend : BackendConfig)
  : haproxy.Server :=
  let server :=
    {| haproxy.Name := Name backend;
       haproxy.IP := IP backend;
       haproxy.Port := Port backend;
       haproxy.Weight := Weight backend;
       haproxy.Check := Enabled (HealthCheck config);
       haproxy.Inter := "";
       haproxy.Fall := 0;
       haproxy.Rise := 0 |} in
  if Enabled (HealthCheck config) then
    haproxy.with_health server
      (String.append (Sprintf_d (Interval (HealthCheck config))) "s")
      (Fall (HealthCheck config))
      (Rise (HealthCheck config))
  else server.

(** The same construction, field by field.  A Go composite literal gives
    the zero value of the struct type to every field it does not mention;
    the assignments that follow write one field each. *)
Inductive Field : Type :=
| FName | FIP | FPort | FWeight | FCheck | FInter | FFall | FRise.

Inductive Value : Type :=
| VString (s : string)
| VInt (n : Z)
| VBool (b : bool).

(** The zero value of [haproxy.Server]. *)
Definition zero_Server : haproxy.Server :=
  {| haproxy.Name := "";
     haproxy.IP := "";
     haproxy.Port := 0;
     haproxy.Weight := 0;
     haproxy.Check := false;
     haproxy.Inter := "";
     haproxy.Fall := 0;
     haproxy.Rise := 0 |}.

(** Writing one field.  A value of another type than the field's does not
    compile in Go; here it leaves the struct as it is. *)
Definition set_field (s : haproxy.Server) (f : Field) (v : Value)
  : haproxy.Server :=
  match f, v with
  | FName, VString x =>
      {| haproxy.Name := x; haproxy.IP := haproxy.IP s;
         haproxy.Port := haproxy.Port s; haproxy.Weight := haproxy.Weight s;
         haproxy.Check := haproxy.Check s; haproxy.Inter := haproxy.Inter s;
         haproxy.Fall := haproxy.Fall s; haproxy.Rise := haproxy.Rise s |}
  | FIP, VString x =>
      {| haproxy.Name := haproxy.Name s; haproxy.IP := x;
         haproxy.Port := haproxy.Port s; haproxy.Weight := haproxy.Weight s;
         haproxy.Check := haproxy.Check s; haproxy.Inter := haproxy.Inter s;
         haproxy.Fall := haproxy.Fall s; haproxy.Rise := haproxy.Rise s |}
  | FPort, VInt n =>
      {| haproxy.Name := haproxy.Name s; haproxy.IP := haproxy.IP s;
         haproxy.Port := n; haproxy.Weight := haproxy.Weight s;
         haproxy.Check := haproxy.Check s; haproxy.Inter := haproxy.Inter s;
         haproxy.Fall := haproxy.Fall s; haproxy.Rise := haproxy.Rise s |}
  | FWeight, VInt n =>
      {| haproxy.Name := haproxy.Name s; haproxy.IP := haproxy.IP s;
         haproxy.Port := haproxy.Port s; haproxy.Weight := n;
         haproxy.Check := haproxy.Check s; haproxy.Inter := haproxy.Inter s;
         haproxy.Fall := haproxy.Fall s; haproxy.Rise := haproxy.Rise s |}
  | FCheck, VBool b =>
      {| haproxy.Name := haproxy.Name s; haproxy.IP := haproxy.IP s;
         haproxy.Port := haproxy.Port s; haproxy.Weight := haproxy.Weight s;
         haproxy.Check := b; haproxy.Inter := haproxy.Inter s;
         haproxy.Fall := haproxy.Fall s; haproxy.Rise := haproxy.Rise s |}
  | FInter, VString x =>
      haproxy.with_health s x (haproxy.Fall s) (haproxy.Rise s)
  | FFall, VInt n =>
      haproxy.with_health s (haproxy.Inter s) n (haproxy.Rise s)
  | FRise, VInt n =>
      haproxy.with_health s (haproxy.Inter s) (haproxy.Fall s) n
  | _, _ => s
  end.

(** The struct value that a list of field writes builds, from the zero
    value, first write first. *)
Definition struct_of (writes : list (Field * Value)) : haproxy.Server :=
  fold_left (fun s fv => set_field s (fst fv) (snd fv)) writes zero_Server.

(** The fields that main.go:61-73 writes for one backend, in order: the
    five fields of the composite literal (lines 62-66), then, only when
    health checking is enabled, the three assignments of lines 70-72. *)
Definition server_writes (config : Config) (backend : BackendConfig)
  : list (Field * Value) :=
  [ (FName, VString (Name backend));
    (FIP, VString (IP backend));
    (FPort, VInt (Port backend));
    (FWeight, VInt (Weight backend));
    (FCheck, VBool (Enabled (HealthCheck config))) ]
  ++ (if Enabled (HealthCheck config) then
        [ (FInter,
           VString (String.append
                      (Sprintf_d (Interval (HealthCheck config))) "s"));
          (FFall, VInt (Fall (HealthCheck config)));
          (FRise, VInt (Rise (HealthCheck config))) ]
      else []).


(** The [range] loop of main.go:60-78. *)
Fixpoint main_backends (client : haproxy.HAProxy) (config : Config)
    (backends : list BackendConfig) : M unit :=
  match backends with
  | [] => ret tt
  | backend :: rest =>
      err <- addServerWithRetry client (server_of config backend) 3 ;;
      match err with
      | Some e => print (LogAddFinallyFailed (Name backend) e)
      | None => ret tt
      end ;;;
      main_backends client config rest
  end.

(** main.go:46-92.  Returning from [main] ends the process with status 0. *)
Definition main : M unit :=
  r <- loadConfig "config.json" ;;
  match r with
  | inr err => log_Fatalf FatalLoadConfig err
  | inl config =>
      r <- newHAProxyClient (HaproxyEndpoint config) (APIKey config) ;;
      match r with
      | inr err => log_Fatalf FatalClientInit err
      | inl client =>
          main_backends client config (Backends config) ;;;
          err <- call (SetLoadBalancingAlgorithm client
                         (LoadBalancingAlgorithm config)) ;;
          match err with
          | Some e => log_Fatalf FatalAlgorithm e
          | None =>
              print (PrintAlgorithmSet (LoadBalancingAlgorithm config)) ;;;
              err <- setRetryPolicy client (RetryPolicy config) ;;
              match err with
              | Some e => log_Fatalf FatalRetryPolicy e
              | None => ret tt
              end
          end
      end
  end.

(** A whole run of the program: the process starts with an empty trace. *)
Definition run (env : Env) : Result unit * Trace := main env [].

(* ===================================================================== *)
(** ** Vocabulary of the properties *)

(** The client that [newHAProxyClient] builds from a configuration. *)
Definition client_of (config : Config) : haproxy.HAProxy :=
  {| haproxy.Endpoint := HaproxyEndpoint config;
     haproxy.ApiKey := APIKey config |}.

(** The registration calls of a run that makes [n] attempts for each backend
    [b], for the pairs [(b, n)] of [combine backends ns]: the attempts of
    one backend are adjacent, and the backends come in their order. *)
Definition attempts (client : haproxy.HAProxy) (config : Config)
    (backends : list BackendConfig) (ns : list nat) : list Call :=
  flat_map
    (fun bn => repeat (AddServer client (server_of config (fst bn))) (snd bn))
    (combine backends ns).

(* ===================================================================== *)
(** ** Sample environments *)

Definition server1 : BackendConfig :=
  {| Name := "server1"; IP := "192.168.1.101"; Port := 80; Weight := 10 |}.

Definition server2 : BackendConfig :=
  {| Name := "server2"; IP := "192.168.1.102"; Port := 80; Weight := 10 |}.

(** The configuration of the README, with health checking on or off. *)
Definition sample_config (enabled : bool) : Config :=
  {| HaproxyEndpoint := "http://localhost:9000";
     APIKey := "key";
     LoadBalancingAlgorithm := "roundrobin";
     Backends := [server1; server2];
     HealthCheck := {| Enabled := enabled; Interval := 5; Fall := 3; Rise := 2 |};
     RetryPolicy := {| Retries := 3; Redispatch := true |} |}.

Definition sample_client : haproxy.HAProxy := client_of (sample_config true).

Definition refused : error := ClientError "connection refused".

(** The same backend declared twice. *)
Definition twice_config : Config :=
  {| HaproxyEndpoint := "http://localhost:9000";
     APIKey := "key";
     LoadBalancingAlgorithm := "leastconn";
     Backends := [server1; server1];
     HealthCheck := {| Enabled := false; Interval := 0; Fall := 0; Rise := 0 |};
     RetryPolicy := {| Retries := 0; Redispatch := false |} |}.

(** A control plane on which every call succeeds. *)
Definition env_ok (enabled : bool) : Env :=
  {| remote := fun _ _ => None;
     config_file := fun _ => inl (sample_config enabled) |}.

(** A control plane that cannot be reached. *)
Definition env_ping_fails : Env :=
  {| remote := fun _ c => match c with Ping _ => Some refused | _ => None end;
     config_file := fun _ => inl (sample_config true) |}.

(** A control plane that refuses the algorithm. *)
Definition env_algorithm_fails : Env :=
  {| remote := fun _ c =>
       match c with
       | SetLoadBalancingAlgorithm _ _ => Some refused
       | _ => None
       end;
     config_file := fun _ => inl (sample_config true) |}.

(** A control plane that refuses the server named [server1], always. *)
Definition env_server1_down : Env :=
  {| remote := fun _ c =>
       match c with
       | AddServer _ s =>
           if String.eqb (haproxy.Name s) "server1" then Some refused else None
       | _ => None
       end;
     config_file := fun _ => inl (sample_config true) |}.

(** A control plane that refuses the first registration it receives and
    accepts every call after it. *)
Definition env_first_add_fails : Env :=
  {| remote := fun history c =>
       match c with
       | AddServer _ _ =>
           if existsb is_AddServer history then None else Some refused
       | _ => None
       end;
     config_file := fun _ => inl (sample_config true) |}.

(* ===================================================================== *)
(** ** Vocabulary of whole traces *)

(** The receiver of a call. *)
Definition receiver (c : Call) : haproxy.HAProxy :=
  match c with
  | Ping client => client
  | AddServer client _ => client
  | SetLoadBalancingAlgorithm client _ => client
  | SetConfig client _ _ => client
  end.

(** [errors.Unwrap]: the operand of [%w] of an error built by [fmt.Errorf]. *)
Definition Unwrap (err : error) : goerror :=
  match err with
  | ClientError _ => None
  | ErrConnect cause => cause
  | ErrAddServer _ cause => cause
  | ErrRetries _ cause => cause
  | ErrRedispatch cause => cause
  end.

(** The events of failed attempts in a row, one per error of [es], the
    first one printed with the number [attempt]. *)
Fixpoint failed_attempts (c : Call) (name : string) (retries attempt : Z)
    (es : list error) : Trace :=
  match es with
  | [] => []
  | e :: es' =>
      Called c (Some e) :: Printed (PrintAddFailed name attempt retries e)
        :: failed_attempts c name retries (attempt + 1) es'
  end.

(** The last error of [es], or [err] when there is none. *)
Definition last_error (es : list error) (err : goerror) : goerror :=
  last (map Some es) err.

(** How the registration of one backend ends: added after some failures,
    or given up after some failures. *)
Inductive Verdict : Type :=
| Added (failures : list error)
| GaveUp (failures : list error).

(** [main] allows three attempts: a backend is added after at most two
    failures or given up after three. *)
Definition verdict_ok (v : Verdict) : Prop :=
  match v with
  | Added es => (List.length es <= 2)%nat
  | GaveUp es => List.length es = 3%nat
  end.

(** The events of the registration of one backend, for a verdict. *)
Definition verdict_events (client : haproxy.HAProxy) (config : Config)
    (b : BackendConfig) (v : Verdict) : Trace :=
  let c := AddServer client (server_of config b) in
  match v with
  | Added es =>
      failed_attempts c (Name b) 3 1 es
        ++ [Called c None; Printed (PrintServerAdded (Name b))]
  | GaveUp es =>
      failed_attempts c (Name b) 3 1 es
        ++ [Printed (LogAddFinallyFailed (Name b)
                       (ErrAddServer (Name b) (last_error es None)))]
  end.

(** The events of the registration stage, backend after backend. *)
Definition registration_events (client : haproxy.HAProxy) (config : Config)
    (backends : list BackendConfig) (vs : list Verdict) : Trace :=
  flat_map (fun bv => verdict_events client config (fst bv) (snd bv))
    (combine backends vs).

(** The backend that a line of output gives a verdict on, if it does. *)
Definition verdict_on (o : Output) : list string :=
  match o with
  | PrintServerAdded name => [name]
  | LogAddFinallyFailed name _ => [name]
  | _ => []
  end.

(** An output that shows the error [e]: the failure line of an attempt, or
    a fatal log of [e] or of an error that wraps it. *)
Definition reports (o : Output) (e : error) : Prop :=
  match o with
  | PrintAddFailed _ _ _ e' => e' = e
  | LogFatal _ err => err = e \/ Unwrap err = Some e
  | _ => False
  end.

(** The number of [AddServer] calls behind a verdict. *)
Definition verdict_calls (v : Verdict) : nat :=
  match v with
  | Added es => S (List.length es)
  | GaveUp es => List.length es
  end.

Definition is_Ping (c : Call) : bool :=
  match c with Ping _ => true | _ => false end.

(** The events that [log.Fatalf] leaves. *)
Definition is_fatal (ev : Event) : bool :=
  match ev with Printed (LogFatal _ _) => true | _ => false end.

(** What the registration stage may leave in the trace: calls of
    [AddServer] for a declared backend, and its three kinds of lines. *)
Definition registration_event (client : haproxy.HAProxy) (config : Config)
    (backends : list BackendConfig) (ev : Event) : Prop :=
  match ev with
  | Called c _ =>
      exists b, In b backends /\ c = AddServer client (server_of config b)
  | Printed (PrintServerAdded _) => True
  | Printed (PrintAddFailed _ _ _ _) => True
  | Printed (LogAddFinallyFailed _ _) => True
  | Printed _ => False
  end.

(** A configuration that declares no backend. *)
Definition no_backend_config : Config :=
  {| HaproxyEndpoint := "http://localhost:9000";
     APIKey := "key";
     LoadBalancingAlgorithm := "roundrobin";
     Backends := [];
     HealthCheck := {| Enabled := true; Interval := 5; Fall := 3; Rise := 2 |};
     RetryPolicy := {| Retries := 3; Redispatch := true |} |}.

(** A disk without a readable configuration. *)
Definition env_no_config : Env :=
  {| remote := fun _ _ => None;
     config_file := fun _ => inr (ClientError "open config.json: no such file") |}.

(** A control plane that accepts ["retries"] and refuses every other
    setting. *)
Definition env_redispatch_fails : Env :=
  {| remote := fun _ c =>
       match c with
       | SetConfig _ key _ =>
           if String.eqb key "retries" then None else Some refused
       | _ => None
       end;
     config_file := fun _ => inl (sample_config true) |}.

(* ===================================================================== *)
(** ** Traces *)

Lemma calls_of_app (t1 t2 : Trace) :
  calls_of (t1 ++ t2) = calls_of t1 ++ calls_of t2.
Proof.
  induction t1 as [| [c r | o] t1 IH]; simpl; [reflexivity | | assumption].
  now rewrite IH.
Qed.

Lemma outputs_of_app (t1 t2 : Trace) :
  outputs_of (t1 ++ t2) = outputs_of t1 ++ outputs_of t2.
Proof.
  induction t1 as [| [c r | o] t1 IH]; simpl; [reflexivity | assumption |].
  now rewrite IH.
Qed.

Lemma In_calls_of (c : Call) (t : Trace) :
  In c (calls_of t) <-> exists r, In (Called c r) t.
Proof.
  induction t as [| [c' r' | o] t IH]; simpl.
  - split; [tauto | intros [r []]].
  - rewrite IH. split.
    + intros [-> | [r H]]; [exists r'; now left | exists r; now right].
    + intros [r [H | H]]; [left; congruence | right; now exists r].
  - rewrite IH. split; intros [r H]; exists r; [now right |].
    destruct H as [H | H]; [discriminate | assumption].
Qed.

Lemma filter_all {A : Type} (f : A -> bool) (l : list A) :
  Forall (fun x => f x = true) l -> filter f l = l.
Proof.
  induction 1 as [| x l Hx _ IH]; simpl; [reflexivity |].
  now rewrite Hx, IH.
Qed.

Lemma filter_none {A : Type} (f : A -> bool) (l : list A) :
  Forall (fun x => f x = false) l -> filter f l = [].
Proof.
  induction 1 as [| x l Hx _ IH]; simpl; [reflexivity |].
  now rewrite Hx.
Qed.

(** Unfolding one step of a computation. *)
Ltac step := unfold bind, call, print, ret, log_Fatalf; cbn beta iota.

(** Brings the history of calls of a grown trace to the form
    [calls_of t ++ [c1; ...; cn]]. *)
Ltac norm_calls :=
  rewrite ?calls_of_app; cbn [calls_of app];
  rewrite ?app_nil_r, <- ?app_assoc; cbn [app].

(* ===================================================================== *)
(** ** The retry loop *)

Section RetryLoop.

Variable env : Env.
Variable client : haproxy.HAProxy.
Variable server : haproxy.Server.

Let c : Call := AddServer client server.

(** The loop always comes to an end, issues nothing but [AddServer] calls
    for its one server, at most one per remaining iteration, and at least
    one when an iteration remains. *)
Lemma addServer_loop_calls (retries : Z) (remaining : nat) :
  forall (err : goerror) (t : Trace),
  exists (evs : Trace) (m : nat) (res : goerror + goerror),
    addServer_loop client server retries remaining err env t
      = (Returned res, t ++ evs)
    /\ calls_of evs = repeat c m
    /\ (m <= remaining)%nat
    /\ (remaining <> 0 -> m <> 0)%nat.
Proof.
  induction remaining as [| n IH]; intros err t.
  - exists [], 0%nat, (inr err). cbn [addServer_loop]; step.
    rewrite app_nil_r. repeat split; auto.
  - cbn [addServer_loop]; step.
    destruct (remote env (calls_of t) (AddServer client server)) as [e |].
    + match goal with
      | |- context [addServer_loop _ _ _ n ?e' env ?t'] =>
          destruct (IH e' t') as (evs & m & res & Hrun & Hcalls & Hle & _);
          rewrite Hrun
      end.
      eexists (_ :: _ :: evs), (S m), res.
      rewrite <- !app_assoc. simpl. rewrite Hcalls.
      repeat split; [lia | discriminate].
    + eexists [_; _], 1%nat, (inl None).
      rewrite <- !app_assoc. simpl.
      repeat split; [lia | discriminate].
Qed.

(** When every attempt fails the loop runs to its end: one call per
    iteration, and the variable [err] holds the last failure. *)
Lemma addServer_loop_all_fail (retries : Z) (remaining : nat) :
  forall (err : goerror) (t : Trace),
    (forall k, (k < remaining)%nat ->
               remote env (calls_of t ++ repeat c k) c <> None) ->
    exists (evs : Trace) (err' : goerror),
      addServer_loop client server retries remaining err env t
        = (Returned (inr err'), t ++ evs)
      /\ calls_of evs = repeat c remaining
      /\ (remaining <> 0%nat -> err' <> None)
      /\ (remaining = 0%nat -> err' = err).
Proof.
  induction remaining as [| n IH]; intros err t Hfail.
  - exists [], err. cbn [addServer_loop]; step.
    rewrite app_nil_r. repeat split; auto; intros H; now elim H.
  - cbn [addServer_loop]; step.
    pose proof (Hfail 0%nat ltac:(lia)) as H0. simpl in H0.
    rewrite app_nil_r in H0. fold c.
    destruct (remote env (calls_of t) c) as [e |]; [clear H0 | now elim H0].
    match goal with
    | |- context [addServer_loop _ _ _ n ?e' env ?t'] =>
        destruct (IH e' t') as (evs & err' & Hrun & Hcalls & Hsome & Hzero)
    end.
    { intros k Hk. rewrite !calls_of_app. simpl. rewrite app_nil_r.
      rewrite <- app_assoc. apply (Hfail (S k)); lia. }
    rewrite Hrun. eexists (_ :: _ :: evs), err'.
    rewrite <- !app_assoc. simpl. rewrite Hcalls.
    repeat split; try discriminate.
    intros _. destruct n; [rewrite Hzero by reflexivity; discriminate |].
    apply Hsome; discriminate.
Qed.

(** [addServerWithRetry] always returns, after at most [retries] calls. *)
Lemma addServerWithRetry_calls (retries : Z) (t : Trace) :
  exists (evs : Trace) (m : nat) (res : goerror),
    addServerWithRetry client server retries env t = (Returned res, t ++ evs)
    /\ calls_of evs = repeat c m
    /\ (m <= Z.to_nat retries)%nat
    /\ (0 < retries -> m <> 0%nat).
Proof.
  unfold addServerWithRetry; step.
  destruct (addServer_loop_calls retries (Z.to_nat retries) None t)
    as (evs & m & res & Hrun & Hcalls & Hle & Hpos).
  rewrite Hrun. exists evs, m.
  destruct res as [r | e]; eexists; (split; [reflexivity |]);
    repeat split; auto; intros; apply Hpos; lia.
Qed.

(** When every attempt fails, [addServerWithRetry] makes every attempt it
    is allowed and returns an error. *)
Lemma addServerWithRetry_all_fail (retries : Z) (t : Trace) :
  (forall k, (k < Z.to_nat retries)%nat ->
             remote env (calls_of t ++ repeat c k) c <> None) ->
  exists (evs : Trace) (cause : goerror),
    addServerWithRetry client server retries env t
      = (Returned (Some (ErrAddServer (haproxy.Name server) cause)), t ++ evs)
    /\ calls_of evs = repeat c (Z.to_nat retries).
Proof.
  intros Hfail. unfold addServerWithRetry; step.
  destruct (addServer_loop_all_fail retries (Z.to_nat retries) None t Hfail)
    as (evs & err' & Hrun & Hcalls & _).
  rewrite Hrun. now exists evs, err'.
Qed.

(** Three failures in a row, with a bound of three. *)
Lemma addServerWithRetry_three_failures (t : Trace) (e1 e2 e3 : error) :
  remote env (calls_of t) c = Some e1 ->
  remote env (calls_of t ++ [c]) c = Some e2 ->
  remote env (calls_of t ++ [c; c]) c = Some e3 ->
  let name := haproxy.Name server in
  addServerWithRetry client server 3 env t
    = (Returned (Some (ErrAddServer name (Some e3))),
       t ++ [Called c (Some e1); Printed (PrintAddFailed name 1 3 e1);
             Called c (Some e2); Printed (PrintAddFailed name 2 3 e2);
             Called c (Some e3); Printed (PrintAddFailed name 3 3 e3)]).
Proof.
  intros E1 E2 E3 name.
  unfold addServerWithRetry. change (Z.to_nat 3) with 3%nat.
  cbn [addServer_loop]; step. fold c name.
  rewrite E1. norm_calls. rewrite E2. norm_calls. rewrite E3.
  now rewrite <- !app_assoc.
Qed.

(** Success at the first attempt, when one attempt at least is allowed. *)
Lemma addServerWithRetry_first_success (retries : Z) (t : Trace) :
  1 <= retries ->
  remote env (calls_of t) c = None ->
  addServerWithRetry client server retries env t
    = (Returned None,
       t ++ [Called c None; Printed (PrintServerAdded (haproxy.Name server))]).
Proof.
  intros Hretries Hok. unfold addServerWithRetry.
  destruct (Z.to_nat retries) as [| n] eqn:En; try lia.
  cbn [addServer_loop]; step. fold c. rewrite Hok.
  now rewrite <- !app_assoc.
Qed.

End RetryLoop.

(* ===================================================================== *)
(** ** The stages of [main] *)

Section Stages.

Variable env : Env.

(** The registration stage returns for every list of backends: it makes
    between one and three attempts per backend, backend after backend. *)
Lemma main_backends_calls (client : haproxy.HAProxy) (config : Config)
    (backends : list BackendConfig) :
  forall t : Trace,
  exists (reg : Trace) (ns : list nat),
    main_backends client config backends env t = (Returned tt, t ++ reg)
    /\ List.length ns = List.length backends
    /\ Forall (fun n => 1 <= n <= 3)%nat ns
    /\ calls_of reg = attempts client config backends ns.
Proof.
  induction backends as [| b rest IH]; intros t.
  - exists [], []. cbn [main_backends]; step. rewrite app_nil_r.
    repeat split; auto.
  - cbn [main_backends]; step.
    destruct (addServerWithRetry_calls env client (server_of config b) 3 t)
      as (evs & m & res & Hrun & Hcalls & Hle & Hpos).
    rewrite Hrun.
    assert (Hm : (1 <= m <= 3)%nat).
    { specialize (Hpos ltac:(lia)). change (Z.to_nat 3) with 3%nat in Hle. lia. }
    destruct res as [e |].
    + destruct (IH ((t ++ evs) ++ [Printed (LogAddFinallyFailed (Name b) e)]))
        as (reg & ns & Hrest & Hlen & Hall & Hreg).
      rewrite Hrest. exists (evs ++ Printed (LogAddFinallyFailed (Name b) e) :: reg), (m :: ns).
      rewrite <- !app_assoc. simpl. repeat split; auto.
      rewrite calls_of_app. simpl. unfold attempts in *. simpl.
      now rewrite Hcalls, Hreg.
    + destruct (IH (t ++ evs)) as (reg & ns & Hrest & Hlen & Hall & Hreg).
      rewrite Hrest. exists (evs ++ reg), (m :: ns).
      rewrite <- !app_assoc. simpl. repeat split; auto.
      rewrite calls_of_app. unfold attempts in *. simpl.
      now rewrite Hcalls, Hreg.
Qed.

(** The retry-policy stage returns, calls nothing but [SetConfig], and
    returns an error whenever one of its calls failed. *)
Lemma setRetryPolicy_calls (client : haproxy.HAProxy)
    (rp : RetryPolicyConfig) (t : Trace) :
  exists (pol : Trace) (res : goerror),
    setRetryPolicy client rp env t = (Returned res, t ++ pol)
    /\ Forall (fun c => is_SetConfig c = true) (calls_of pol)
    /\ (forall c e, In (Called c (Some e)) pol -> res <> None).
Proof.
  unfold setRetryPolicy; step.
  destruct (remote env (calls_of t) _) as [e |].
  - eexists [_], _. split; [reflexivity |]. simpl. split; [auto |].
    discriminate.
  - destruct (remote env (calls_of (t ++ _)) _) as [e |].
    + eexists [_; _], _. rewrite <- !app_assoc. split; [reflexivity |].
      simpl. split; [auto |]. discriminate.
    + eexists [_; _; _], _. rewrite <- !app_assoc. split; [reflexivity |].
      simpl. split; [auto |].
      intros c e [H | [H | [H | []]]]; discriminate.
Qed.

(** A run whose configuration cannot be loaded calls nothing. *)
Lemma run_load_fails (err : error) :
  config_file env "config.json" = inr err ->
  run env = (Exited 1, [Printed (LogFatal FatalLoadConfig err)]).
Proof.
  intros Hload. unfold run, main, loadConfig; step. now rewrite Hload.
Qed.

(** A run whose probe fails stops after the probe. *)
Lemma run_ping_fails (config : Config) (e : error) :
  config_file env "config.json" = inl config ->
  remote env [] (Ping (client_of config)) = Some e ->
  run env = (Exited 1,
             [Called (Ping (client_of config)) (Some e);
              Printed (LogFatal FatalClientInit (ErrConnect (Some e)))]).
Proof.
  intros Hload Hping.
  unfold run, main, loadConfig, newHAProxyClient; step. rewrite Hload.
  cbn [calls_of]. fold (client_of config). now rewrite Hping.
Qed.

(** A run whose probe succeeds goes through the registration stage and
    reaches the algorithm call; what follows depends on that call only. *)
Lemma run_ping_ok (config : Config) :
  config_file env "config.json" = inl config ->
  remote env [] (Ping (client_of config)) = None ->
  let client := client_of config in
  let alg := SetLoadBalancingAlgorithm client (LoadBalancingAlgorithm config) in
  exists (reg : Trace) (ns : list nat) (r : goerror) (tail : Trace)
         (res : Result unit),
    run env = (res, Called (Ping client) None :: reg ++ Called alg r :: tail)
    /\ List.length ns = List.length (Backends config)
    /\ Forall (fun n => 1 <= n <= 3)%nat ns
    /\ calls_of reg = attempts client config (Backends config) ns
    /\ r = remote env (Ping client :: calls_of reg) alg
    /\ match r with
       | Some e => res = Exited 1
                   /\ tail = [Printed (LogFatal FatalAlgorithm e)]
       | None => Forall (fun c => is_SetConfig c = true) (calls_of tail)
                 /\ (forall c e, In (Called c (Some e)) tail -> res = Exited 1)
       end.
Proof.
  intros Hload Hping client alg.
  destruct (main_backends_calls client config (Backends config)
              [Called (Ping client) None])
    as (reg & ns & Hreg & Hlen & Hall & Hcalls).
  exists reg, ns, (remote env (Ping client :: calls_of reg) alg).
  unfold run, main, loadConfig, newHAProxyClient; step. rewrite Hload.
  cbn [calls_of]. fold (client_of config). rewrite Hping. fold client.
  cbn [app]. rewrite Hreg. fold alg.
  change (calls_of ([Called (Ping client) None] ++ reg))
    with (Ping client :: calls_of reg).
  destruct (remote env (Ping client :: calls_of reg) alg) as [e |].
  - eexists _, _. split; [| repeat split; auto].
    simpl. now rewrite <- app_assoc.
  - destruct (setRetryPolicy_calls client (RetryPolicy config)
                ((([Called (Ping client) None] ++ reg) ++ [Called alg None])
                   ++ [Printed (PrintAlgorithmSet (LoadBalancingAlgorithm config))]))
      as (pol & res & Hpol & Hset & Hfailed).
    rewrite Hpol.
    destruct res as [e |].
    + exists (Printed (PrintAlgorithmSet (LoadBalancingAlgorithm config))
                :: pol ++ [Printed (LogFatal FatalRetryPolicy e)]).
      eexists. split; [simpl; now rewrite <- !app_assoc |].
      repeat split; auto.
      simpl. rewrite calls_of_app. simpl. now rewrite app_nil_r.
    + exists (Printed (PrintAlgorithmSet (LoadBalancingAlgorithm config)) :: pol).
      eexists. split; [simpl; now rewrite <- !app_assoc |].
      repeat split; auto.
      intros c e [H | H]; [discriminate |].
      now elim (Hfailed c e H).
Qed.

End Stages.

(* ===================================================================== *)
(** ** What a run can call *)

Lemma In_attempts (client : haproxy.HAProxy) (config : Config) (c : Call) :
  forall (backends : list BackendConfig) (ns : list nat),
    In c (attempts client config backends ns) ->
    exists b, In b backends /\ c = AddServer client (server_of config b).
Proof.
  unfold attempts. intros backends ns Hin.
  apply in_flat_map in Hin. destruct Hin as ([b n] & Hbn & Hc).
  apply repeat_spec in Hc. apply in_combine_l in Hbn. now exists b.
Qed.

Lemma attempts_AddServer (client : haproxy.HAProxy) (config : Config) :
  forall (backends : list BackendConfig) (ns : list nat),
    Forall (fun c => is_AddServer c = true)
      (attempts client config backends ns).
Proof.
  intros backends ns. apply Forall_forall. intros c Hin.
  apply In_attempts in Hin. destruct Hin as (b & _ & ->). reflexivity.
Qed.

(** Every registration call of a run is made on the client of the
    configuration, for the server value of one of its backends. *)
Lemma run_AddServer (env : Env) (client : haproxy.HAProxy)
    (s : haproxy.Server) :
  In (AddServer client s) (calls_of (snd (run env))) ->
  exists config b,
    config_file env "config.json" = inl config
    /\ client = client_of config
    /\ In b (Backends config)
    /\ s = server_of config b.
Proof.
  intros Hin.
  destruct (config_file env "config.json") as [config | err] eqn:Hload.
  2: { rewrite (run_load_fails env err Hload) in Hin. contradiction. }
  destruct (remote env [] (Ping (client_of config))) as [e |] eqn:Hping.
  { rewrite (run_ping_fails env config e Hload Hping) in Hin.
    destruct Hin as [H | []]. discriminate. }
  destruct (run_ping_ok env config Hload Hping)
    as (reg & ns & r & tail & res & Hrun & _ & _ & Hreg & _ & Htail).
  rewrite Hrun in Hin. cbn [snd calls_of] in Hin.
  rewrite calls_of_app in Hin. cbn [calls_of] in Hin.
  destruct Hin as [H | Hin]; [discriminate |].
  apply in_app_or in Hin. destruct Hin as [Hin | [H | Hin]]; [| discriminate |].
  - rewrite Hreg in Hin. apply In_attempts in Hin.
    destruct Hin as (b & Hb & Heq). injection Heq as -> ->.
    now exists config, b.
  - destruct r as [e |].
    + destruct Htail as [_ ->]. contradiction.
    + destruct Htail as [Htail _].
      rewrite Forall_forall in Htail. apply Htail in Hin. discriminate.
Qed.

(** A run in which a [SetConfig] call fails exits with status 1. *)
Lemma run_SetConfig_failure (env : Env) (client : haproxy.HAProxy)
    (key value : string) (e : error) :
  In (Called (SetConfig client key value) (Some e)) (snd (run env)) ->
  fst (run env) = Exited 1.
Proof.
  intros Hin.
  destruct (config_file env "config.json") as [config | err] eqn:Hload.
  2: { now rewrite (run_load_fails env err Hload). }
  destruct (remote env [] (Ping (client_of config))) as [e' |] eqn:Hping.
  { now rewrite (run_ping_fails env config e' Hload Hping). }
  destruct (run_ping_ok env config Hload Hping)
    as (reg & ns & r & tail & res & Hrun & _ & _ & Hreg & _ & Htail).
  rewrite Hrun in *. cbn [fst snd] in *.
  destruct Hin as [H | Hin]; [discriminate |].
  apply in_app_or in Hin. destruct Hin as [Hin | [H | Hin]]; [| discriminate |].
  - exfalso.
    assert (Hc : In (SetConfig client key value) (calls_of reg))
      by (apply In_calls_of; eauto).
    rewrite Hreg in Hc. apply In_attempts in Hc.
    destruct Hc as (b & _ & Hc). discriminate.
  - destruct r as [e' |]; [apply Htail |].
    destruct Htail as [_ Hfailed]. eapply Hfailed, Hin.
Qed.

Lemma server_of_Name (config : Config) (b : BackendConfig) :
  haproxy.Name (server_of config b) = Name b.
Proof. unfold server_of. now destruct (Enabled (HealthCheck config)). Qed.

(* ===================================================================== *)
(** ** Properties of [addServerWithRetry] *)

(** C2 (bounded retry).  When the three attempts that [main] allows for a
    server all fail (nothing is supposed of a fourth attempt),
    [addServerWithRetry client server 3] calls [AddServer] exactly three
    times, prints the three failures, and returns an error that wraps the
    last failure. *)
Theorem C2_bounded_retry (env : Env) (client : haproxy.HAProxy)
    (server : haproxy.Server) (t : Trace) :
  let c := AddServer client server in
  let name := haproxy.Name server in
  (forall k, (k < 3)%nat -> remote env (calls_of t ++ repeat c k) c <> None) ->
  exists (e1 e2 e3 : error) (evs : Trace),
    addServerWithRetry client server 3 env t
      = (Returned (Some (ErrAddServer name (Some e3))), t ++ evs)
    /\ evs = [Called c (Some e1); Printed (PrintAddFailed name 1 3 e1);
              Called c (Some e2); Printed (PrintAddFailed name 2 3 e2);
              Called c (Some e3); Printed (PrintAddFailed name 3 3 e3)]
    /\ calls_of evs = [c; c; c].
Proof.
  intros c name Hfail.
  pose proof (Hfail 0%nat ltac:(lia)) as H0.
  pose proof (Hfail 1%nat ltac:(lia)) as H1.
  pose proof (Hfail 2%nat ltac:(lia)) as H2.
  cbn [repeat] in H0, H1, H2. rewrite app_nil_r in H0.
  destruct (remote env (calls_of t) c) as [e1 |] eqn:E1; [clear H0 | now elim H0].
  destruct (remote env (calls_of t ++ [c]) c) as [e2 |] eqn:E2;
    [clear H1 | now elim H1].
  destruct (remote env (calls_of t ++ [c; c]) c) as [e3 |] eqn:E3;
    [clear H2 | now elim H2].
  exists e1, e2, e3. eexists. split; [| split; reflexivity].
  now apply addServerWithRetry_three_failures.
Qed.

Lemma C2_bounded_retry_witness :
  exists (e1 e2 e3 : error) (evs : Trace),
    addServerWithRetry sample_client (server_of (sample_config true) server1) 3
      env_server1_down []
      = (Returned (Some (ErrAddServer "server1" (Some e3))), [] ++ evs)
    /\ evs = [Called (AddServer sample_client (server_of (sample_config true) server1)) (Some e1);
              Printed (PrintAddFailed "server1" 1 3 e1);
              Called (AddServer sample_client (server_of (sample_config true) server1)) (Some e2);
              Printed (PrintAddFailed "server1" 2 3 e2);
              Called (AddServer sample_client (server_of (sample_config true) server1)) (Some e3);
              Printed (PrintAddFailed "server1" 3 3 e3)]
    /\ calls_of evs = repeat (AddServer sample_client (server_of (sample_config true) server1)) 3.
Proof.
  apply (C2_bounded_retry env_server1_down sample_client
           (server_of (sample_config true) server1) []).
  intros k _. simpl. discriminate.
Defined.

(** C7 (early-success stop).  When the first attempt fails and the second
    succeeds, [addServerWithRetry], allowed two attempts or more, calls
    [AddServer] exactly twice, reports the server as added and returns
    [nil]. *)
Theorem C7_early_success (env : Env) (client : haproxy.HAProxy)
    (server : haproxy.Server) (retries : Z) (t : Trace) (e : error) :
  let c := AddServer client server in
  let name := haproxy.Name server in
  2 <= retries ->
  remote env (calls_of t) c = Some e ->
  remote env (calls_of t ++ [c]) c = None ->
  let evs := [Called c (Some e); Printed (PrintAddFailed name 1 retries e);
              Called c None; Printed (PrintServerAdded name)] in
  addServerWithRetry client server retries env t = (Returned None, t ++ evs)
  /\ calls_of evs = [c; c]
  /\ outputs_of evs = [PrintAddFailed name 1 retries e; PrintServerAdded name].
Proof.
  intros c name Hretries Hfirst Hsecond evs.
  split; [| split; reflexivity].
  unfold addServerWithRetry.
  destruct (Z.to_nat retries) as [| [| n]] eqn:En; try lia.
  assert (Hi : retries - Z.of_nat (S (S n)) + 1 = 1) by lia.
  cbn [addServer_loop]; step. fold c name.
  rewrite Hfirst, Hi. norm_calls. rewrite Hsecond.
  unfold evs. now rewrite <- !app_assoc.
Qed.

Lemma C7_early_success_witness :
  addServerWithRetry sample_client (server_of (sample_config true) server1) 3
    env_first_add_fails []
  = (Returned None,
     [Called (AddServer sample_client (server_of (sample_config true) server1))
        (Some refused);
      Printed (PrintAddFailed "server1" 1 3 refused);
      Called (AddServer sample_client (server_of (sample_config true) server1))
        None;
      Printed (PrintServerAdded "server1")]).
Proof.
  apply (C7_early_success env_first_add_fails sample_client
           (server_of (sample_config true) server1) 3 [] refused);
    [lia | reflexivity | reflexivity].
Defined.

(** C10 (no attempt allowed).  With a bound of zero or less the loop body
    never runs: [addServerWithRetry] calls nothing, prints nothing, and
    still returns a non-nil error, built from the [nil] that the variable
    [err] holds from its declaration. *)
Theorem C10_no_attempt (env : Env) (client : haproxy.HAProxy)
    (server : haproxy.Server) (retries : Z) (t : Trace) :
  retries <= 0 ->
  addServerWithRetry client server retries env t
    = (Returned (Some (ErrAddServer (haproxy.Name server) None)), t)
  /\ calls_of (snd (addServerWithRetry client server retries env t))
     = calls_of t.
Proof.
  intros Hretries. unfold addServerWithRetry.
  assert (Hz : Z.to_nat retries = 0%nat) by lia.
  rewrite Hz. cbn [addServer_loop]; step. now split.
Qed.

Lemma C10_no_attempt_witness :
  addServerWithRetry sample_client (server_of (sample_config true) server1) (-1)
    env_server1_down []
  = (Returned (Some (ErrAddServer "server1" None)), []).
Proof.
  apply (C10_no_attempt env_server1_down sample_client
           (server_of (sample_config true) server1) (-1) []).
  lia.
Defined.

(* ===================================================================== *)
(** ** Properties of [setRetryPolicy] *)

(** C3 (retry-policy ordering).  [setRetryPolicy] first sets ["retries"] to
    the decimal text of the count.  If that call fails, nothing else is
    called and an error is returned.  Otherwise ["option redispatch"] is set
    to ["on"] or ["off"]; if that call fails an error is returned, and [nil]
    is returned only when both calls succeeded.  For a count of 3 with
    redispatch on, the two calls are [("retries", "3")] and
    [("option redispatch", "on")].  A run in which either call fails exits
    with status 1. *)
Theorem C3_retry_policy_order (env : Env) (client : haproxy.HAProxy)
    (rp : RetryPolicyConfig) (t : Trace) :
  let c1 := SetConfig client "retries" (Sprintf_d (Retries rp)) in
  let c2 := SetConfig client "option redispatch"
              (if Redispatch rp then "on" else "off") in
  match remote env (calls_of t) c1 with
  | Some e1 =>
      setRetryPolicy client rp env t
        = (Returned (Some (ErrRetries (Retries rp) (Some e1))),
           t ++ [Called c1 (Some e1)])
  | None =>
      match remote env (calls_of t ++ [c1]) c2 with
      | Some e2 =>
          setRetryPolicy client rp env t
            = (Returned (Some (ErrRedispatch (Some e2))),
               t ++ [Called c1 None; Called c2 (Some e2)])
      | None =>
          setRetryPolicy client rp env t
            = (Returned None,
               t ++ [Called c1 None; Called c2 None;
                     Printed (PrintRetryPolicySet (Retries rp) (Redispatch rp))])
      end
  end
  /\ (Retries rp = 3 /\ Redispatch rp = true ->
      c1 = SetConfig client "retries" "3"
      /\ c2 = SetConfig client "option redispatch" "on")
  /\ (forall cl key value e,
        In (Called (SetConfig cl key value) (Some e)) (snd (run env)) ->
        fst (run env) = Exited 1).
Proof.
  intros c1 c2. split; [| split].
  - unfold setRetryPolicy; step. fold c1.
    destruct (remote env (calls_of t) c1) as [e1 |]; [reflexivity |].
    norm_calls. fold c2.
    destruct (remote env (calls_of t ++ [c1]) c2) as [e2 |];
      now rewrite <- ?app_assoc.
  - intros [H3 Hon]. unfold c1, c2. now rewrite H3, Hon.
  - intros cl key value e. apply run_SetConfig_failure.
Qed.

(** The scenario of the README's configuration: retries 3, redispatch on,
    on a control plane that accepts both settings. *)
Lemma C3_retry_policy_order_witness :
  setRetryPolicy sample_client {| Retries := 3; Redispatch := true |}
    (env_ok true) []
  = (Returned None,
     [Called (SetConfig sample_client "retries" "3") None;
      Called (SetConfig sample_client "option redispatch" "on") None;
      Printed (PrintRetryPolicySet 3 true)]).
Proof.
  exact (proj1 (C3_retry_policy_order (env_ok true) sample_client
                  {| Retries := 3; Redispatch := true |} [])).
Defined.

(* ===================================================================== *)
(** ** The registration stage *)

(** C9 (declared order).  The registration loop returns for every list of
    backends, and its calls are, for the backends in their declared order,
    between one and three [AddServer] calls for that backend's server value:
    the attempts for one backend are adjacent, every backend is attempted,
    and a backend declared twice is attempted at both places.  In a run that
    reaches the loop (the configuration is loaded and the probe succeeds),
    these are all the [AddServer] calls of the run. *)
Theorem C9_declared_order (env : Env) (config : Config) :
  (forall (client : haproxy.HAProxy) (t : Trace),
   exists (reg : Trace) (ns : list nat),
     main_backends client config (Backends config) env t
       = (Returned tt, t ++ reg)
     /\ List.length ns = List.length (Backends config)
     /\ Forall (fun n => 1 <= n <= 3)%nat ns
     /\ calls_of reg = attempts client config (Backends config) ns)
  /\ (config_file env "config.json" = inl config ->
      remote env [] (Ping (client_of config)) = None ->
      exists ns : list nat,
        List.length ns = List.length (Backends config)
        /\ Forall (fun n => 1 <= n <= 3)%nat ns
        /\ filter is_AddServer (calls_of (snd (run env)))
           = attempts (client_of config) config (Backends config) ns).
Proof.
  split; [intros client t; apply main_backends_calls |].
  intros Hload Hping.
  destruct (run_ping_ok env config Hload Hping)
    as (reg & ns & r & tail & res & Hrun & Hlen & Hall & Hreg & _ & Htail).
  exists ns. repeat split; auto.
  rewrite Hrun. cbn [snd calls_of]. rewrite calls_of_app. cbn [calls_of filter].
  cbn [is_AddServer]. rewrite filter_app. cbn [filter is_AddServer].
  rewrite Hreg, (filter_all _ _ (attempts_AddServer _ _ _ _)).
  rewrite filter_none; [apply app_nil_r |].
  destruct r as [e |].
  - destruct Htail as [_ ->]. constructor.
  - eapply Forall_impl; [| exact (proj1 Htail)].
    intros [] H; cbn in *; congruence.
Qed.

Lemma C9_declared_order_witness :
  exists ns : list nat,
    List.length ns = 2%nat
    /\ Forall (fun n => 1 <= n <= 3)%nat ns
    /\ filter is_AddServer (calls_of (snd (run env_server1_down)))
       = attempts sample_client (sample_config true) [server1; server2] ns.
Proof.
  apply (proj2 (C9_declared_order env_server1_down (sample_config true)));
    reflexivity.
Defined.

Example declared_twice_attempted_twice :
  filter is_AddServer
    (calls_of (snd (run {| remote := fun _ _ => None;
                           config_file := fun _ => inl twice_config |})))
  = [AddServer sample_client (server_of twice_config server1);
     AddServer sample_client (server_of twice_config server1)].
Proof. reflexivity. Qed.

Example declared_order_server1_down :
  filter is_AddServer (calls_of (snd (run env_server1_down)))
  = attempts sample_client (sample_config true) [server1; server2] [3; 1]%nat.
Proof. reflexivity. Qed.

(** C5 (partial-failure isolation).  With the backends [[a; b]], when the
    three attempts for [a] fail and the first attempt for [b] succeeds, the
    run logs the final failure of [a], registers [b] and reports it as
    added, and then makes the algorithm call: the failure of [a] does not
    end the run. *)
Theorem C5_partial_failure (env : Env) (config : Config)
    (a b : BackendConfig) :
  let client := client_of config in
  let ca := AddServer client (server_of config a) in
  let cb := AddServer client (server_of config b) in
  let alg := SetLoadBalancingAlgorithm client (LoadBalancingAlgorithm config) in
  config_file env "config.json" = inl config ->
  Backends config = [a; b] ->
  remote env [] (Ping client) = None ->
  (forall k, (k < 3)%nat ->
             remote env (Ping client :: repeat ca k) ca <> None) ->
  remote env [Ping client; ca; ca; ca] cb = None ->
  exists (e1 e2 e3 : error) (r : goerror) (tail : Trace),
    snd (run env)
    = [Called (Ping client) None;
       Called ca (Some e1); Printed (PrintAddFailed (Name a) 1 3 e1);
       Called ca (Some e2); Printed (PrintAddFailed (Name a) 2 3 e2);
       Called ca (Some e3); Printed (PrintAddFailed (Name a) 3 3 e3);
       Printed (LogAddFinallyFailed (Name a)
                  (ErrAddServer (Name a) (Some e3)));
       Called cb None; Printed (PrintServerAdded (Name b));
       Called alg r] ++ tail.
Proof.
  intros client ca cb alg Hload Hbackends Hping Hfail Hb.
  pose proof (Hfail 0%nat ltac:(lia)) as H0.
  pose proof (Hfail 1%nat ltac:(lia)) as H1.
  pose proof (Hfail 2%nat ltac:(lia)) as H2.
  cbn [repeat] in H0, H1, H2.
  destruct (remote env [Ping client] ca) as [e1 |] eqn:E1;
    [clear H0 | now elim H0].
  destruct (remote env [Ping client; ca] ca) as [e2 |] eqn:E2;
    [clear H1 | now elim H1].
  destruct (remote env [Ping client; ca; ca] ca) as [e3 |] eqn:E3;
    [clear H2 | now elim H2].
  exists e1, e2, e3, (remote env [Ping client; ca; ca; ca; cb] alg).
  unfold run, main, loadConfig, newHAProxyClient; step. rewrite Hload.
  cbn [calls_of]. fold (client_of config). fold client.
  rewrite Hping, Hbackends.
  cbn [main_backends app]; step.
  rewrite (addServerWithRetry_three_failures env client (server_of config a)
             [Called (Ping client) None] e1 e2 e3 E1 E2 E3).
  cbn [app].
  rewrite (addServerWithRetry_first_success env client (server_of config b) 3)
    by (trivial; lia).
  rewrite !server_of_Name. fold ca cb alg. cbn [calls_of app].
  destruct (remote env [Ping client; ca; ca; ca; cb] alg) as [e |].
  - eexists [_]. reflexivity.
  - match goal with
    | |- context [setRetryPolicy ?cl ?rp env ?t] =>
        destruct (setRetryPolicy_calls env cl rp t) as (pol & res & Hpol & _ & _);
        rewrite Hpol
    end.
    destruct res as [e |].
    + eexists (_ :: pol ++ [_]). reflexivity.
    + eexists (_ :: pol). reflexivity.
Qed.

Lemma C5_partial_failure_witness :
  exists (e1 e2 e3 : error) (r : goerror) (tail : Trace),
    snd (run env_server1_down)
    = [Called (Ping sample_client) None;
       Called (AddServer sample_client (server_of (sample_config true) server1))
         (Some e1);
       Printed (PrintAddFailed "server1" 1 3 e1);
       Called (AddServer sample_client (server_of (sample_config true) server1))
         (Some e2);
       Printed (PrintAddFailed "server1" 2 3 e2);
       Called (AddServer sample_client (server_of (sample_config true) server1))
         (Some e3);
       Printed (PrintAddFailed "server1" 3 3 e3);
       Printed (LogAddFinallyFailed "server1"
                  (ErrAddServer "server1" (Some e3)));
       Called (AddServer sample_client (server_of (sample_config true) server2))
         None;
       Printed (PrintServerAdded "server2");
       Called (SetLoadBalancingAlgorithm sample_client "roundrobin") r] ++ tail.
Proof.
  apply (C5_partial_failure env_server1_down (sample_config true)
           server1 server2);
    try reflexivity.
  intros k _. simpl. discriminate.
Defined.

(* ===================================================================== *)
(** ** The fatal stages *)

(** C4 (fatal short-circuit).  In a run whose connectivity probe fails, the
    process exits with status 1 after logging the cause, and the probe is
    the only call made: no server is registered, no algorithm and no retry
    policy is set. *)
Theorem C4_ping_failure_is_fatal (env : Env) (client : haproxy.HAProxy)
    (e : error) :
  In (Called (Ping client) (Some e)) (snd (run env)) ->
  fst (run env) = Exited 1
  /\ calls_of (snd (run env)) = [Ping client]
  /\ Forall (fun c => is_AddServer c = false
                      /\ is_SetLoadBalancingAlgorithm c = false
                      /\ is_SetConfig c = false)
       (calls_of (snd (run env)))
  /\ outputs_of (snd (run env))
     = [LogFatal FatalClientInit (ErrConnect (Some e))].
Proof.
  intros Hin.
  destruct (config_file env "config.json") as [config | err] eqn:Hload.
  2: { rewrite (run_load_fails env err Hload) in Hin.
       destruct Hin as [H | []]. discriminate. }
  destruct (remote env [] (Ping (client_of config))) as [e' |] eqn:Hping.
  { rewrite (run_ping_fails env config e' Hload Hping) in *.
    destruct Hin as [H | [H | []]]; [| discriminate].
    injection H as -> ->. cbn. repeat split; auto. }
  exfalso.
  destruct (run_ping_ok env config Hload Hping)
    as (reg & ns & r & tail & res & Hrun & _ & _ & Hreg & _ & Htail).
  rewrite Hrun in Hin. cbn [snd] in Hin.
  destruct Hin as [H | Hin]; [discriminate |].
  apply in_app_or in Hin. destruct Hin as [Hin | [H | Hin]]; [| discriminate |].
  - assert (Hc : In (Ping client) (calls_of reg))
      by (apply In_calls_of; eauto).
    rewrite Hreg in Hc. apply In_attempts in Hc.
    destruct Hc as (b & _ & Hc). discriminate.
  - destruct r as [e' |].
    + destruct Htail as [_ ->]. destruct Hin as [H | []]. discriminate.
    + assert (Hc : In (Ping client) (calls_of tail))
        by (apply In_calls_of; eauto).
      destruct Htail as [Htail _].
      rewrite Forall_forall in Htail. apply Htail in Hc. discriminate.
Qed.

Lemma C4_ping_failure_is_fatal_witness :
  fst (run env_ping_fails) = Exited 1
  /\ calls_of (snd (run env_ping_fails)) = [Ping sample_client]
  /\ Forall (fun c => is_AddServer c = false
                      /\ is_SetLoadBalancingAlgorithm c = false
                      /\ is_SetConfig c = false)
       (calls_of (snd (run env_ping_fails)))
  /\ outputs_of (snd (run env_ping_fails))
     = [LogFatal FatalClientInit (ErrConnect (Some refused))].
Proof.
  apply (C4_ping_failure_is_fatal env_ping_fails sample_client refused).
  vm_compute. left. reflexivity.
Defined.

(** C6 (fatal stage ordering).  In a run whose algorithm call fails, the
    process exits with status 1 after logging the cause, and no [SetConfig]
    call is made: neither the retries nor the redispatch setting is
    attempted. *)
Theorem C6_algorithm_failure_is_fatal (env : Env) (client : haproxy.HAProxy)
    (algorithm : string) (e : error) :
  In (Called (SetLoadBalancingAlgorithm client algorithm) (Some e))
     (snd (run env)) ->
  fst (run env) = Exited 1
  /\ Forall (fun c => is_SetConfig c = false) (calls_of (snd (run env)))
  /\ In (LogFatal FatalAlgorithm e) (outputs_of (snd (run env))).
Proof.
  intros Hin.
  destruct (config_file env "config.json") as [config | err] eqn:Hload.
  2: { rewrite (run_load_fails env err Hload) in Hin.
       destruct Hin as [H | []]. discriminate. }
  destruct (remote env [] (Ping (client_of config))) as [e' |] eqn:Hping.
  { rewrite (run_ping_fails env config e' Hload Hping) in Hin.
    destruct Hin as [H | [H | []]]; discriminate. }
  destruct (run_ping_ok env config Hload Hping)
    as (reg & ns & r & tail & res & Hrun & _ & _ & Hreg & _ & Htail).
  rewrite Hrun in *. cbn [fst snd] in *.
  destruct Hin as [H | Hin]; [discriminate |].
  apply in_app_or in Hin. destruct Hin as [Hin | [H | Hin]].
  - exfalso.
    assert (Hc : In (SetLoadBalancingAlgorithm client algorithm) (calls_of reg))
      by (apply In_calls_of; eauto).
    rewrite Hreg in Hc. apply In_attempts in Hc.
    destruct Hc as (b & _ & Hc). discriminate.
  - injection H as _ _ ->. destruct Htail as [-> ->].
    split; [reflexivity |]. split.
    + cbn [calls_of]. rewrite calls_of_app. cbn [calls_of].
      constructor; [reflexivity |]. apply Forall_app. split.
      * rewrite Hreg. eapply Forall_impl; [| apply attempts_AddServer].
        intros [] H; cbn in *; congruence.
      * constructor; [reflexivity | constructor].
    + cbn [outputs_of]. rewrite outputs_of_app. cbn [outputs_of].
      apply in_or_app. right. now left.
  - exfalso. destruct r as [e' |].
    + destruct Htail as [_ ->]. destruct Hin as [H | []]. discriminate.
    + assert (Hc : In (SetLoadBalancingAlgorithm client algorithm) (calls_of tail))
        by (apply In_calls_of; eauto).
      destruct Htail as [Htail _].
      rewrite Forall_forall in Htail. apply Htail in Hc. discriminate.
Qed.

Lemma C6_algorithm_failure_is_fatal_witness :
  fst (run env_algorithm_fails) = Exited 1
  /\ Forall (fun c => is_SetConfig c = false)
       (calls_of (snd (run env_algorithm_fails)))
  /\ In (LogFatal FatalAlgorithm refused)
       (outputs_of (snd (run env_algorithm_fails))).
Proof.
  apply (C6_algorithm_failure_is_fatal env_algorithm_fails sample_client
           "roundrobin" refused).
  vm_compute. do 5 right. left. reflexivity.
Defined.

(* ===================================================================== *)
(** ** Health-check fields of the registered server *)

Example Sprintf_d_5 : Sprintf_d 5 = "5".
Proof. reflexivity. Qed.

Example Sprintf_d_neg : Sprintf_d (-12) = "-12".
Proof. reflexivity. Qed.

Example Sprintf_d_0 : Sprintf_d 0 = "0".
Proof. reflexivity. Qed.

(** The decimal text printed for [n] reads back as [n]. *)
Lemma Sprintf_d_reads_back (n : Z) :
  option_map Z.of_int (NilZero.int_of_string (Sprintf_d n)) = Some n.
Proof.
  unfold Sprintf_d. rewrite NilZero.isi.
  - simpl. now rewrite DecimalZ.of_to.
  - destruct n; simpl; try discriminate.
    intros [= H]. now apply DecimalPos.Unsigned.to_uint_nonnil in H.
  - destruct n; simpl; try discriminate.
    intros [= H]. now apply DecimalPos.Unsigned.to_uint_nonnil in H.
Qed.

(** C8 (health-check fields when enabled).  With health checking enabled,
    every registration call of a run carries [Check = true], the interval
    as the decimal text of the configured number followed by ["s"] (["5s"]
    for 5), and the configured fall and rise. *)
Theorem C8_enabled_health_fields (env : Env) (config : Config)
    (client : haproxy.HAProxy) (s : haproxy.Server) :
  config_file env "config.json" = inl config ->
  Enabled (HealthCheck config) = true ->
  In (AddServer client s) (calls_of (snd (run env))) ->
  let hc := HealthCheck config in
  (exists b,
     In b (Backends config)
     /\ s = {| haproxy.Name := Name b;
               haproxy.IP := IP b;
               haproxy.Port := Port b;
               haproxy.Weight := Weight b;
               haproxy.Check := true;
               haproxy.Inter := String.append (Sprintf_d (Interval hc)) "s";
               haproxy.Fall := Fall hc;
               haproxy.Rise := Rise hc |})
  /\ option_map Z.of_int (NilZero.int_of_string (Sprintf_d (Interval hc)))
     = Some (Interval hc)
  /\ (Interval hc = 5 -> haproxy.Inter s = "5s").
Proof.
  intros Hload Henabled Hin hc.
  apply run_AddServer in Hin.
  destruct Hin as (config' & b & Hload' & _ & Hb & ->).
  rewrite Hload in Hload'. injection Hload' as <-.
  unfold server_of, haproxy.with_health. rewrite Henabled. cbn. fold hc.
  split; [now exists b |].
  split; [apply Sprintf_d_reads_back |].
  intros ->. reflexivity.
Qed.

Lemma C8_enabled_health_fields_witness :
  haproxy.Inter (server_of (sample_config true) server1) = "5s"
  /\ haproxy.Fall (server_of (sample_config true) server1) = 3
  /\ haproxy.Rise (server_of (sample_config true) server1) = 2.
Proof.
  destruct (C8_enabled_health_fields (env_ok true) (sample_config true)
              sample_client (server_of (sample_config true) server1)
              eq_refl eq_refl) as (_ & _ & Hinter).
  - vm_compute. right. left. reflexivity.
  - split; [apply Hinter; reflexivity | split; reflexivity].
Defined.




(** The registration calls of the sample configuration with health
    checking disabled and interval 5, fall 3, rise 2 configured. *)
Example registration_calls_health_disabled :
  filter is_AddServer (calls_of (snd (run (env_ok false))))
  = [AddServer sample_client
       (struct_of [ (FName, VString "server1");
                    (FIP, VString "192.168.1.101");
                    (FPort, VInt 80); (FWeight, VInt 10);
                    (FCheck, VBool false) ]);
     AddServer sample_client
       (struct_of [ (FName, VString "server2");
                    (FIP, VString "192.168.1.102");
                    (FPort, VInt 80); (FWeight, VInt 10);
                    (FCheck, VBool false) ])].
Proof. reflexivity. Qed.

(* ===================================================================== *)
(** ** The whole trace of [addServerWithRetry] *)

Lemma last_cons_default {A : Type} (a d : A) (l : list A) :
  last (a :: l) d = last l a.
Proof.
  revert a d. induction l as [| b l IH]; intros a d; [reflexivity |].
  change (last (a :: b :: l) d) with (last (b :: l) d).
  now rewrite (IH b d), (IH b a).
Qed.

Lemma calls_of_failed_attempts (c : Call) (name : string) (retries : Z)
    (es : list error) :
  forall attempt,
    calls_of (failed_attempts c name retries attempt es)
    = repeat c (List.length es).
Proof.
  induction es as [| e es IH]; intros attempt; simpl; [reflexivity |].
  now rewrite IH.
Qed.

Section RetryTrace.

Variable env : Env.
Variable client : haproxy.HAProxy.
Variable server : haproxy.Server.

Let c : Call := AddServer client server.
Let name : string := haproxy.Name server.
Let success : Trace := [Called c None; Printed (PrintServerAdded name)].

(** The loop makes some failed attempts, numbered in a row, and then either
    succeeds before its iterations are used up, or has used them all and
    leaves the last failure in [err]. *)
Lemma addServer_loop_trace (retries : Z) (remaining : nat) :
  forall (err : goerror) (t : Trace),
  exists es : list error,
    let failures :=
      failed_attempts c name retries (retries - Z.of_nat remaining + 1) es in
    ((List.length es < remaining)%nat
     /\ addServer_loop client server retries remaining err env t
        = (Returned (inl None), t ++ failures ++ success))
    \/ (List.length es = remaining
        /\ addServer_loop client server retries remaining err env t
           = (Returned (inr (last_error es err)), t ++ failures)).
Proof.
  induction remaining as [| n IH]; intros err t.
  - exists []. right. cbn [addServer_loop]; step.
    cbn. now rewrite app_nil_r.
  - cbn [addServer_loop]; step. fold c name.
    destruct (remote env (calls_of t) c) as [e |].
    + match goal with
      | |- context [addServer_loop _ _ _ n ?e' env ?t'] =>
          destruct (IH e' t') as (es & [[Hlen Hrun] | [Hlen Hrun]]);
          rewrite Hrun
      end;
        exists (e :: es);
        replace (retries - Z.of_nat n + 1)
          with (retries - Z.of_nat (S n) + 1 + 1) by lia;
        [left | right]; (split; [simpl; lia |]);
        cbn [failed_attempts]; rewrite <- !app_assoc; cbn [app];
        try reflexivity.
      unfold last_error. cbn [map]. now rewrite last_cons_default.
    + exists []. left. split; [simpl; lia |].
      cbn [failed_attempts app]. now rewrite <- !app_assoc.
Qed.

(** The same for [addServerWithRetry]: the failures are numbered from 1. *)
Lemma addServerWithRetry_trace (retries : Z) (t : Trace) :
  exists es : list error,
    let failures := failed_attempts c name retries 1 es in
    ((List.length es < Z.to_nat retries)%nat
     /\ addServerWithRetry client server retries env t
        = (Returned None, t ++ failures ++ success))
    \/ (List.length es = Z.to_nat retries
        /\ addServerWithRetry client server retries env t
           = (Returned (Some (ErrAddServer name (last_error es None))),
              t ++ failures)).
Proof.
  unfold addServerWithRetry; step.
  destruct (addServer_loop_trace retries (Z.to_nat retries) None t)
    as (es & [[Hlen Hrun] | [Hlen Hrun]]); rewrite Hrun; exists es;
    [left | right]; (split; [exact Hlen |]).
  - replace (retries - Z.of_nat (Z.to_nat retries) + 1) with 1 by lia.
    reflexivity.
  - destruct es as [| e es]; [reflexivity |].
    replace (retries - Z.of_nat (Z.to_nat retries) + 1) with 1
      by (simpl in Hlen; lia).
    reflexivity.
Qed.

(** When the first [k] attempts fail and the next one succeeds, within the
    iterations that remain, the loop stops there. *)
Lemma addServer_loop_first_success (retries : Z) (k : nat) :
  forall (remaining : nat) (err : goerror) (t : Trace),
    (k < remaining)%nat ->
    (forall j, (j < k)%nat -> remote env (calls_of t ++ repeat c j) c <> None) ->
    remote env (calls_of t ++ repeat c k) c = None ->
    exists es : list error,
      List.length es = k
      /\ addServer_loop client server retries remaining err env t
         = (Returned (inl None),
            t ++ failed_attempts c name retries
                   (retries - Z.of_nat remaining + 1) es ++ success).
Proof.
  induction k as [| k IH]; intros remaining err t Hk Hfail Hok.
  - destruct remaining as [| n]; [lia |].
    exists []. split; [reflexivity |].
    cbn [addServer_loop]; step. fold c name.
    cbn [repeat] in Hok. rewrite app_nil_r in Hok. rewrite Hok.
    cbn [failed_attempts app]. now rewrite <- !app_assoc.
  - destruct remaining as [| n]; [lia |].
    cbn [addServer_loop]; step. fold c name.
    pose proof (Hfail 0%nat ltac:(lia)) as H0.
    cbn [repeat] in H0. rewrite app_nil_r in H0.
    destruct (remote env (calls_of t) c) as [e |]; [clear H0 | now elim H0].
    match goal with
    | |- context [addServer_loop _ _ _ n ?e' env ?t'] =>
        destruct (IH n e' t') as (es & Hlen & Hrun)
    end.
    + lia.
    + intros j Hj. norm_calls. apply (Hfail (S j)). lia.
    + norm_calls. exact Hok.
    + rewrite Hrun. exists (e :: es). split; [simpl; lia |].
      replace (retries - Z.of_nat n + 1)
        with (retries - Z.of_nat (S n) + 1 + 1) by lia.
      cbn [failed_attempts]. rewrite <- !app_assoc. reflexivity.
Qed.

(** When every attempt fails, [err] ends as the answer to the last one. *)
Lemma addServer_loop_exhausts (retries : Z) (remaining : nat) :
  forall (err : goerror) (t : Trace),
    (forall k, (k < remaining)%nat ->
               remote env (calls_of t ++ repeat c k) c <> None) ->
    exists evs : Trace,
      addServer_loop client server retries remaining err env t
        = (Returned (inr match remaining with
                         | O => err
                         | S m => remote env (calls_of t ++ repeat c m) c
                         end),
           t ++ evs)
      /\ calls_of evs = repeat c remaining.
Proof.
  induction remaining as [| n IH]; intros err t Hfail.
  - exists []. cbn [addServer_loop]; step. now rewrite app_nil_r.
  - cbn [addServer_loop]; step. fold c name.
    pose proof (Hfail 0%nat ltac:(lia)) as H0.
    cbn [repeat] in H0. rewrite app_nil_r in H0.
    destruct (remote env (calls_of t) c) as [e |] eqn:E; [clear H0 | now elim H0].
    match goal with
    | |- context [addServer_loop _ _ _ n ?e' env ?t'] =>
        destruct (IH e' t') as (evs & Hrun & Hcalls)
    end.
    { intros k Hk. norm_calls. apply (Hfail (S k)). lia. }
    rewrite Hrun, <- !app_assoc. cbn [app].
    exists (Called c (Some e)
              :: Printed (PrintAddFailed name (retries - Z.of_nat (S n) + 1)
                            retries e) :: evs).
    split; [| cbn [calls_of repeat]; now rewrite Hcalls].
    do 3 f_equal. destruct n as [| m]; cbn [repeat].
    + now rewrite app_nil_r.
    + now norm_calls.
Qed.

End RetryTrace.

(* ===================================================================== *)
(** ** The whole trace of a run *)

Section RunTrace.

Variable env : Env.

(** The registration stage, event by event: every backend gets its failed
    attempts, numbered from 1, and then its verdict. *)
Lemma main_backends_trace (client : haproxy.HAProxy) (config : Config)
    (backends : list BackendConfig) :
  forall t : Trace,
  exists vs : list Verdict,
    List.length vs = List.length backends
    /\ Forall verdict_ok vs
    /\ main_backends client config backends env t
       = (Returned tt, t ++ registration_events client config backends vs).
Proof.
  induction backends as [| b rest IH]; intros t.
  - exists []. cbn [main_backends]; step. cbn. rewrite app_nil_r. auto.
  - cbn [main_backends]; step.
    destruct (addServerWithRetry_trace env client (server_of config b) 3 t)
      as (es & [[Hlen Hrun] | [Hlen Hrun]]);
      rewrite Hrun, ?server_of_Name; cbn beta iota;
      change (Z.to_nat 3) with 3%nat in Hlen.
    + match goal with
      | |- context [main_backends _ _ rest env ?t'] =>
          destruct (IH t') as (vs & Hvs & Hok & Hrest); rewrite Hrest
      end.
      exists (Added es :: vs). split; [simpl; lia |].
      split; [constructor; [simpl; lia | exact Hok] |].
      unfold registration_events. cbn [combine flat_map fst snd verdict_events].
      now rewrite <- !app_assoc.
    + match goal with
      | |- context [main_backends _ _ rest env ?t'] =>
          destruct (IH t') as (vs & Hvs & Hok & Hrest); rewrite Hrest
      end.
      exists (GaveUp es :: vs). split; [simpl; lia |].
      split; [constructor; [exact Hlen | exact Hok] |].
      unfold registration_events. cbn [combine flat_map fst snd verdict_events].
      now rewrite <- !app_assoc.
Qed.

(** A run whose probe succeeds, event by event. *)
Lemma run_trace (config : Config) :
  config_file env "config.json" = inl config ->
  remote env [] (Ping (client_of config)) = None ->
  let client := client_of config in
  let alg := SetLoadBalancingAlgorithm client (LoadBalancingAlgorithm config) in
  let rp := RetryPolicy config in
  let c1 := SetConfig client "retries" (Sprintf_d (Retries rp)) in
  let c2 := SetConfig client "option redispatch"
              (if Redispatch rp then "on" else "off") in
  exists vs : list Verdict,
    List.length vs = List.length (Backends config)
    /\ Forall verdict_ok vs
    /\ let t1 := Called (Ping client) None
                   :: registration_events client config (Backends config) vs in
       let t2 := t1 ++ [Called alg None;
                        Printed (PrintAlgorithmSet (LoadBalancingAlgorithm config))] in
       match remote env (calls_of t1) alg with
       | Some e =>
           run env = (Exited 1,
                      t1 ++ [Called alg (Some e);
                             Printed (LogFatal FatalAlgorithm e)])
       | None =>
           match remote env (calls_of t2) c1 with
           | Some e1 =>
               run env
               = (Exited 1,
                  t2 ++ [Called c1 (Some e1);
                         Printed (LogFatal FatalRetryPolicy
                                    (ErrRetries (Retries rp) (Some e1)))])
           | None =>
               match remote env (calls_of t2 ++ [c1]) c2 with
               | Some e2 =>
                   run env
                   = (Exited 1,
                      t2 ++ [Called c1 None; Called c2 (Some e2);
                             Printed (LogFatal FatalRetryPolicy
                                        (ErrRedispatch (Some e2)))])
               | None =>
                   run env
                   = (Returned tt,
                      t2 ++ [Called c1 None; Called c2 None;
                             Printed (PrintRetryPolicySet (Retries rp)
                                        (Redispatch rp))])
               end
           end
       end.
Proof.
  intros Hload Hping client alg rp c1 c2.
  destruct (main_backends_trace client config (Backends config)
              [Called (Ping client) None]) as (vs & Hlen & Hok & Hreg).
  exists vs. split; [exact Hlen |]. split; [exact Hok |].
  intros t1 t2.
  unfold run, main, loadConfig, newHAProxyClient; step. rewrite Hload.
  cbn [calls_of]. fold (client_of config). rewrite Hping. fold client.
  cbn [app]. rewrite Hreg.
  change ([Called (Ping client) None]
            ++ registration_events client config (Backends config) vs)
    with t1.
  fold alg.
  destruct (remote env (calls_of t1) alg) as [e |];
    [now rewrite <- app_assoc |].
  unfold setRetryPolicy; step. fold rp c1.
  replace ((t1 ++ [Called alg None])
             ++ [Printed (PrintAlgorithmSet (LoadBalancingAlgorithm config))])
    with t2 by (unfold t2; now rewrite <- app_assoc).
  destruct (remote env (calls_of t2) c1) as [e1 |];
    [now rewrite <- ?app_assoc |].
  rewrite calls_of_app. cbn [calls_of]. fold c2.
  destruct (remote env (calls_of t2 ++ [c1]) c2) as [e2 |];
    now rewrite <- ?app_assoc.
Qed.

End RunTrace.

(* ===================================================================== *)
(** ** The events of the registration stage *)

Section RegistrationEvents.

Variable client : haproxy.HAProxy.
Variable config : Config.

Lemma In_failed_attempts (c : Call) (name : string) (retries : Z)
    (es : list error) (ev : Event) :
  forall attempt,
    In ev (failed_attempts c name retries attempt es) ->
    exists e a,
      In (Printed (PrintAddFailed name a retries e))
        (failed_attempts c name retries attempt es)
      /\ (ev = Called c (Some e)
          \/ ev = Printed (PrintAddFailed name a retries e)).
Proof.
  induction es as [| e es IH]; intros attempt Hin; [contradiction |].
  cbn [failed_attempts] in *.
  destruct Hin as [<- | [<- | Hin]].
  - exists e, attempt. split; [right; now left | now left].
  - exists e, attempt. split; [right; now left | now right].
  - destruct (IH _ Hin) as (e' & a & Hprinted & Hev).
    exists e', a. split; [now do 2 right | exact Hev].
Qed.

Lemma In_verdict_events (b : BackendConfig) (v : Verdict) (ev : Event) :
  In ev (verdict_events client config b v) ->
  let c := AddServer client (server_of config b) in
  (exists e a,
     In (Printed (PrintAddFailed (Name b) a 3 e))
       (verdict_events client config b v)
     /\ (ev = Called c (Some e)
         \/ ev = Printed (PrintAddFailed (Name b) a 3 e)))
  \/ (In (Called c None) (verdict_events client config b v)
      /\ (ev = Called c None \/ ev = Printed (PrintServerAdded (Name b))))
  \/ (exists err, ev = Printed (LogAddFinallyFailed (Name b) err)).
Proof.
  intros Hin c. destruct v as [es | es]; cbn [verdict_events] in *;
    fold c in Hin |- *; apply in_app_or in Hin; destruct Hin as [Hin | Hin].
  - left. destruct (In_failed_attempts _ _ _ _ _ _ Hin) as (e & a & Hp & Hev).
    exists e, a. split; [apply in_or_app; now left | exact Hev].
  - right. left. split; [apply in_or_app; right; now left |].
    destruct Hin as [<- | [<- | []]]; auto.
  - left. destruct (In_failed_attempts _ _ _ _ _ _ Hin) as (e & a & Hp & Hev).
    exists e, a. split; [apply in_or_app; now left | exact Hev].
  - right. right. destruct Hin as [<- | []]. eauto.
Qed.

Lemma In_registration_events (backends : list BackendConfig)
    (vs : list Verdict) (ev : Event) :
  In ev (registration_events client config backends vs) ->
  exists b v,
    In b backends
    /\ In ev (verdict_events client config b v)
    /\ incl (verdict_events client config b v)
         (registration_events client config backends vs).
Proof.
  unfold registration_events. intros Hin.
  apply in_flat_map in Hin. destruct Hin as ([b v] & Hbv & Hev).
  exists b, v. split; [eapply in_combine_l, Hbv |]. split; [exact Hev |].
  intros ev' Hev'. apply in_flat_map. now exists (b, v).
Qed.

Lemma registration_events_kind (backends : list BackendConfig)
    (vs : list Verdict) :
  Forall (registration_event client config backends)
    (registration_events client config backends vs).
Proof.
  apply Forall_forall. intros ev Hin.
  destruct (In_registration_events _ _ _ Hin) as (b & v & Hb & Hev & _).
  destruct (In_verdict_events _ _ _ Hev)
    as [(e & a & _ & [-> | ->]) | [(_ & [-> | ->]) | (err & ->)]];
    cbn; eauto.
Qed.

Lemma registration_events_not_fatal (backends : list BackendConfig)
    (vs : list Verdict) :
  forallb (fun ev => negb (is_fatal ev))
    (registration_events client config backends vs) = true.
Proof.
  apply forallb_forall. intros ev Hin.
  pose proof (registration_events_kind backends vs) as Hkind.
  rewrite Forall_forall in Hkind. specialize (Hkind ev Hin).
  destruct ev as [c r | []]; cbn in *; auto.
Qed.

Lemma outputs_of_failed_attempts (c : Call) (name : string) (retries : Z)
    (es : list error) :
  forall attempt,
    flat_map verdict_on
      (outputs_of (failed_attempts c name retries attempt es)) = [].
Proof.
  induction es as [| e es IH]; intros attempt; cbn; [reflexivity | apply IH].
Qed.

Lemma verdict_on_registration_events (backends : list BackendConfig) :
  forall vs : list Verdict,
    List.length vs = List.length backends ->
    flat_map verdict_on
      (outputs_of (registration_events client config backends vs))
    = map Name backends.
Proof.
  unfold registration_events.
  induction backends as [| b rest IH]; intros [| v vs] Hlen;
    try discriminate; [reflexivity |].
  cbn [combine flat_map map fst snd].
  rewrite outputs_of_app, flat_map_app, IH by (simpl in Hlen; lia).
  destruct v as [es | es]; cbn [verdict_events];
    now rewrite outputs_of_app, flat_map_app, outputs_of_failed_attempts.
Qed.

Lemma calls_of_registration_events (backends : list BackendConfig) :
  forall vs : list Verdict,
    calls_of (registration_events client config backends vs)
    = attempts client config backends (map verdict_calls vs).
Proof.
  unfold registration_events, attempts.
  induction backends as [| b rest IH]; intros [| v vs]; try reflexivity.
  cbn [combine flat_map map fst snd].
  rewrite calls_of_app, IH. f_equal.
  destruct v as [es | es]; cbn [verdict_events verdict_calls];
    rewrite calls_of_app, calls_of_failed_attempts; cbn [calls_of].
  - change (S (List.length es)) with (1 + List.length es)%nat.
    rewrite Nat.add_comm, repeat_app. reflexivity.
  - apply app_nil_r.
Qed.

Lemma verdict_calls_bounds (vs : list Verdict) :
  Forall verdict_ok vs ->
  Forall (fun n => 1 <= n <= 3)%nat (map verdict_calls vs).
Proof.
  induction 1 as [| v vs Hv _ IH]; cbn [map]; constructor; [| exact IH].
  destruct v as [es | es]; cbn in *; lia.
Qed.

Lemma length_attempts (backends : list BackendConfig) :
  forall ns : list nat,
    Forall (fun n => 1 <= n <= 3)%nat ns ->
    (List.length (attempts client config backends ns)
     <= 3 * List.length backends)%nat.
Proof.
  unfold attempts.
  induction backends as [| b rest IH]; intros ns Hns; [simpl; lia |].
  destruct Hns as [| n ns Hn Hns]; [simpl; lia |].
  cbn [combine flat_map fst snd]. rewrite length_app, repeat_length.
  specialize (IH ns Hns). simpl List.length. lia.
Qed.

End RegistrationEvents.

(* ===================================================================== *)
(** ** More on [addServerWithRetry] *)

(** X1.  In every case, [addServerWithRetry] returns after some failed
    attempts whose lines are numbered 1, 2, ... and carry the bound: either
    it then succeeds, reports the server as added and returns [nil], having
    failed fewer times than the bound; or it has failed as many times as
    the bound (no time for a bound of zero or less) and returns an error
    that wraps the last failure. *)
Theorem X1_retry_trace (env : Env) (client : haproxy.HAProxy)
    (server : haproxy.Server) (retries : Z) (t : Trace) :
  let c := AddServer client server in
  let name := haproxy.Name server in
  exists es : list error,
    let failures := failed_attempts c name retries 1 es in
    ((List.length es < Z.to_nat retries)%nat
     /\ addServerWithRetry client server retries env t
        = (Returned None,
           t ++ failures ++ [Called c None; Printed (PrintServerAdded name)]))
    \/ (List.length es = Z.to_nat retries
        /\ addServerWithRetry client server retries env t
           = (Returned (Some (ErrAddServer name (last_error es None))),
              t ++ failures)).
Proof. apply addServerWithRetry_trace. Qed.

(** X2.  Whatever the bound, when every attempt fails [addServerWithRetry]
    makes as many calls as the bound allows, and the error it returns wraps
    the answer to the last call. *)
Theorem X2_retry_exhausts_bound (env : Env) (client : haproxy.HAProxy)
    (server : haproxy.Server) (retries : Z) (t : Trace) :
  let c := AddServer client server in
  (forall k, (k < Z.to_nat retries)%nat ->
             remote env (calls_of t ++ repeat c k) c <> None) ->
  exists evs : Trace,
    addServerWithRetry client server retries env t
      = (Returned
           (Some (ErrAddServer (haproxy.Name server)
                    match Z.to_nat retries with
                    | O => None
                    | S m => remote env (calls_of t ++ repeat c m) c
                    end)),
         t ++ evs)
    /\ calls_of evs = repeat c (Z.to_nat retries).
Proof.
  intros c Hfail. unfold addServerWithRetry; step.
  destruct (addServer_loop_exhausts env client server retries
              (Z.to_nat retries) None t Hfail) as (evs & Hrun & Hcalls).
  rewrite Hrun. now exists evs.
Qed.

Lemma X2_retry_exhausts_bound_witness :
  exists evs : Trace,
    addServerWithRetry sample_client (server_of (sample_config true) server1) 5
      env_server1_down []
      = (Returned (Some (ErrAddServer "server1" (Some refused))), [] ++ evs)
    /\ calls_of evs
       = repeat (AddServer sample_client
                   (server_of (sample_config true) server1)) 5.
Proof.
  apply (X2_retry_exhausts_bound env_server1_down sample_client
           (server_of (sample_config true) server1) 5 []).
  intros k _. simpl. discriminate.
Defined.

(** X3.  When the first [k] attempts fail and the next one succeeds, and
    the bound allows more than [k] attempts, [addServerWithRetry] makes
    exactly [k + 1] calls, prints [k] failure lines and the success line,
    and returns [nil]. *)
Theorem X3_retry_stops_at_first_success (env : Env)
    (client : haproxy.HAProxy) (server : haproxy.Server) (retries : Z)
    (k : nat) (t : Trace) :
  let c := AddServer client server in
  let name := haproxy.Name server in
  (k < Z.to_nat retries)%nat ->
  (forall j, (j < k)%nat -> remote env (calls_of t ++ repeat c j) c <> None) ->
  remote env (calls_of t ++ repeat c k) c = None ->
  exists es : list error,
    List.length es = k
    /\ addServerWithRetry client server retries env t
       = (Returned None,
          t ++ failed_attempts c name retries 1 es
            ++ [Called c None; Printed (PrintServerAdded name)])
    /\ calls_of (snd (addServerWithRetry client server retries env t))
       = calls_of t ++ repeat c (S k).
Proof.
  intros c name Hk Hfail Hok. unfold addServerWithRetry; step.
  destruct (addServer_loop_first_success env client server retries k
              (Z.to_nat retries) None t Hk Hfail Hok) as (es & Hlen & Hrun).
  rewrite Hrun. exists es. split; [exact Hlen |].
  replace (retries - Z.of_nat (Z.to_nat retries) + 1) with 1 by lia.
  split; [reflexivity |]. cbn [snd].
  rewrite !calls_of_app, calls_of_failed_attempts, Hlen. cbn [calls_of].
  f_equal. change (S k) with (1 + k)%nat.
  now rewrite Nat.add_comm, repeat_app.
Qed.

Lemma X3_retry_stops_at_first_success_witness :
  exists es : list error,
    List.length es = 1%nat
    /\ addServerWithRetry sample_client
         (server_of (sample_config true) server2) 4 env_first_add_fails []
       = (Returned None,
          [] ++ failed_attempts
                  (AddServer sample_client
                     (server_of (sample_config true) server2))
                  "server2" 4 1 es
             ++ [Called (AddServer sample_client
                           (server_of (sample_config true) server2)) None;
                 Printed (PrintServerAdded "server2")])
    /\ calls_of (snd (addServerWithRetry sample_client
                        (server_of (sample_config true) server2) 4
                        env_first_add_fails []))
       = [] ++ repeat (AddServer sample_client
                         (server_of (sample_config true) server2)) 2.
Proof.
  apply (X3_retry_stops_at_first_success env_first_add_fails sample_client
           (server_of (sample_config true) server2) 4 1 []).
  - simpl. lia.
  - intros j Hj. replace j with 0%nat by lia. simpl. discriminate.
  - reflexivity.
Defined.

(* ===================================================================== *)
(** ** More on whole runs *)

(** The six ways a run can go: the configuration cannot be loaded; the
    probe fails; the algorithm is refused; ["retries"] is refused;
    ["option redispatch"] is refused; everything after the registration
    stage succeeds.  In each case the run is rewritten to its trace. *)
Ltac run_cases env :=
  let config := fresh "config" in
  let err := fresh "err" in
  let Hload := fresh "Hload" in
  let Hping := fresh "Hping" in
  let e := fresh "e" in
  let vs := fresh "vs" in
  let Hlen := fresh "Hlen" in
  let Hok := fresh "Hok" in
  let Hrun := fresh "Hrun" in
  destruct (config_file env "config.json") as [config | err] eqn:Hload;
  [ destruct (remote env [] (Ping (client_of config))) as [e |] eqn:Hping;
    [ rewrite (run_ping_fails env config e Hload Hping) in *
    | destruct (run_trace env config Hload Hping) as (vs & Hlen & Hok & Hrun);
      cbv zeta in Hrun;
      destruct (remote env _ (SetLoadBalancingAlgorithm _ _)) as [? |] in Hrun;
      [ | destruct (remote env _ (SetConfig _ "retries" _)) as [? |] in Hrun;
          [ | destruct (remote env _ (SetConfig _ "option redispatch" _))
                as [? |] in Hrun ] ];
      rewrite Hrun in *; clear Hrun ]
  | rewrite (run_load_fails env err Hload) in * ].

(** Membership in a trace given as a list of segments. *)
Ltac split_in H :=
  repeat (cbn [In app] in H;
          first [ apply in_app_or in H
                | match type of H with _ \/ _ => destruct H as [H | H] end
                | match type of H with False => destruct H end ]).

(** X4.  When the configuration cannot be loaded the run exits with
    status 1 after logging the cause, and calls nothing. *)
Theorem X4_load_failure_is_fatal (env : Env) (err : error) :
  config_file env "config.json" = inr err ->
  run env = (Exited 1, [Printed (LogFatal FatalLoadConfig err)])
  /\ calls_of (snd (run env)) = [].
Proof.
  intros Hload. rewrite (run_load_fails env err Hload). now split.
Qed.

Lemma X4_load_failure_is_fatal_witness :
  run env_no_config
  = (Exited 1,
     [Printed (LogFatal FatalLoadConfig
                 (ClientError "open config.json: no such file"))])
  /\ calls_of (snd (run env_no_config)) = [].
Proof.
  apply (X4_load_failure_is_fatal env_no_config). reflexivity.
Defined.

Lemma attempts_not_Ping (client : haproxy.HAProxy) (config : Config)
    (backends : list BackendConfig) (ns : list nat) :
  forallb (fun c => negb (is_Ping c)) (attempts client config backends ns)
  = true.
Proof.
  apply forallb_forall. intros c Hin. apply In_attempts in Hin.
  destruct Hin as (b & _ & ->). reflexivity.
Qed.

(** X5.  In a run whose configuration loads, the first event is the probe
    on the client of the configuration, and no other probe follows: the
    probe is never retried. *)
Theorem X5_probe_first_and_once (env : Env) (config : Config) :
  config_file env "config.json" = inl config ->
  exists rest : Trace,
    snd (run env)
    = Called (Ping (client_of config))
        (remote env [] (Ping (client_of config))) :: rest
    /\ forallb (fun c => negb (is_Ping c)) (calls_of rest) = true.
Proof.
  intros Hcfg. run_cases env; try discriminate;
    injection Hcfg as <-; rewrite Hping; cbn [snd app]; eexists;
    (split; [reflexivity |]); try reflexivity;
    rewrite ?calls_of_app, ?forallb_app, calls_of_registration_events,
      attempts_not_Ping;
    reflexivity.
Qed.

Lemma X5_probe_first_and_once_witness :
  exists rest : Trace,
    snd (run env_server1_down)
    = Called (Ping sample_client) None :: rest
    /\ forallb (fun c => negb (is_Ping c)) (calls_of rest) = true.
Proof.
  apply (X5_probe_first_and_once env_server1_down (sample_config true)).
  reflexivity.
Defined.

(** X6.  Every call of a run is made on the one client built from the
    endpoint and the key of the configuration. *)
Theorem X6_single_client (env : Env) (config : Config) (c : Call) :
  config_file env "config.json" = inl config ->
  In c (calls_of (snd (run env))) ->
  receiver c = client_of config.
Proof.
  intros Hcfg Hin. run_cases env; try discriminate;
    injection Hcfg as <-; cbn [snd] in Hin;
    rewrite ?app_comm_cons, ?calls_of_app in Hin; cbn [calls_of] in Hin;
    rewrite ?calls_of_registration_events in Hin;
    split_in Hin; subst; try reflexivity;
    apply In_attempts in Hin; destruct Hin as (b & _ & ->); reflexivity.
Qed.

Lemma X6_single_client_witness :
  receiver (SetConfig sample_client "option redispatch" "on")
  = client_of (sample_config true).
Proof.
  apply (X6_single_client (env_ok true) (sample_config true));
    [reflexivity |].
  vm_compute. do 5 right. left. reflexivity.
Defined.

Lemma In_outputs_of (o : Output) (t : Trace) :
  In o (outputs_of t) <-> In (Printed o) t.
Proof.
  induction t as [| [c r | o'] t IH]; simpl.
  - tauto.
  - rewrite IH. split; [tauto | intros [H | H]; [discriminate | exact H]].
  - rewrite IH. split; (intros [H | H]; [left; congruence | now right]).
Qed.

(** X7.  The calls of a run that passes the probe come in the order of the
    stages: the probe, the registration calls (one to three in a row for
    each backend, in declared order), the algorithm, then ["retries"], then
    ["option redispatch"]; the run may stop after any of the last three,
    and a run that returns has made them all. *)
Theorem X7_call_sequence (env : Env) (config : Config) :
  config_file env "config.json" = inl config ->
  remote env [] (Ping (client_of config)) = None ->
  let client := client_of config in
  let alg := SetLoadBalancingAlgorithm client (LoadBalancingAlgorithm config) in
  let c1 := SetConfig client "retries" (Sprintf_d (Retries (RetryPolicy config))) in
  let c2 := SetConfig client "option redispatch"
              (if Redispatch (RetryPolicy config) then "on" else "off") in
  exists (ns : list nat) (last_calls : list Call),
    List.length ns = List.length (Backends config)
    /\ Forall (fun n => 1 <= n <= 3)%nat ns
    /\ calls_of (snd (run env))
       = Ping client :: attempts client config (Backends config) ns
           ++ last_calls
    /\ (last_calls = [alg] \/ last_calls = [alg; c1]
        \/ last_calls = [alg; c1; c2])
    /\ (fst (run env) = Returned tt -> last_calls = [alg; c1; c2]).
Proof.
  intros Hcfg Hp client alg c1 c2.
  run_cases env; try discriminate; injection Hcfg as <-;
    try (rewrite Hp in Hping; discriminate);
    exists (map verdict_calls vs);
    cbn [fst snd]; rewrite ?app_comm_cons, ?calls_of_app; cbn [calls_of];
    rewrite calls_of_registration_events, <- ?app_assoc; cbn [app];
    fold client alg c1 c2.
  - exists [alg]. rewrite length_map.
    repeat split; auto using verdict_calls_bounds. discriminate.
  - exists [alg; c1]. rewrite length_map.
    repeat split; auto using verdict_calls_bounds. discriminate.
  - exists [alg; c1; c2]. rewrite length_map.
    repeat split; auto using verdict_calls_bounds.
  - exists [alg; c1; c2]. rewrite length_map.
    repeat split; auto using verdict_calls_bounds.
Qed.

Lemma X7_call_sequence_witness :
  exists (ns : list nat) (last_calls : list Call),
    List.length ns = 2%nat
    /\ Forall (fun n => 1 <= n <= 3)%nat ns
    /\ calls_of (snd (run env_redispatch_fails))
       = Ping sample_client
           :: attempts sample_client (sample_config true) [server1; server2] ns
           ++ last_calls
    /\ (last_calls = [SetLoadBalancingAlgorithm sample_client "roundrobin"]
        \/ last_calls = [SetLoadBalancingAlgorithm sample_client "roundrobin";
                         SetConfig sample_client "retries" "3"]
        \/ last_calls = [SetLoadBalancingAlgorithm sample_client "roundrobin";
                         SetConfig sample_client "retries" "3";
                         SetConfig sample_client "option redispatch" "on"])
    /\ (fst (run env_redispatch_fails) = Returned tt ->
        last_calls = [SetLoadBalancingAlgorithm sample_client "roundrobin";
                      SetConfig sample_client "retries" "3";
                      SetConfig sample_client "option redispatch" "on"]).
Proof.
  apply (X7_call_sequence env_redispatch_fails (sample_config true));
    reflexivity.
Defined.

(** X8.  A run makes at most three calls per declared backend and four
    more, and none when the configuration cannot be loaded. *)
Theorem X8_calls_bounded (env : Env) :
  (List.length (calls_of (snd (run env)))
   <= match config_file env "config.json" with
      | inl config => 4 + 3 * List.length (Backends config)
      | inr _ => 0
      end)%nat.
Proof.
  run_cases env; cbn [snd];
    rewrite ?app_comm_cons, ?calls_of_app; cbn [calls_of];
    rewrite ?calls_of_registration_events, ?length_app; cbn [List.length];
    try lia;
    match goal with
    | |- context [attempts ?cl ?cfg ?bs ?ns] =>
        pose proof (length_attempts cl cfg bs ns
                      (verdict_calls_bounds vs Hok))
    end; lia.
Qed.

(** X9.  With no backend declared, a run that passes the probe goes
    straight to the algorithm call. *)
Theorem X9_no_backend (env : Env) (config : Config) :
  config_file env "config.json" = inl config ->
  remote env [] (Ping (client_of config)) = None ->
  Backends config = [] ->
  let client := client_of config in
  let alg := SetLoadBalancingAlgorithm client (LoadBalancingAlgorithm config) in
  exists tail : Trace,
    snd (run env)
    = Called (Ping client) None
        :: Called alg (remote env [Ping client] alg) :: tail
    /\ forallb (fun c => negb (is_AddServer c)) (calls_of (snd (run env)))
       = true.
Proof.
  intros Hcfg Hp Hnone client alg.
  unfold run, main, loadConfig, newHAProxyClient; step.
  rewrite Hcfg. cbn [calls_of]. fold (client_of config). rewrite Hp.
  rewrite Hnone. cbn [main_backends]; step. cbn [app calls_of].
  fold client alg.
  destruct (remote env [Ping client] alg) as [e |].
  - eexists. split; reflexivity.
  - match goal with
    | |- context [setRetryPolicy ?cl ?rp env ?t] =>
        destruct (setRetryPolicy_calls env cl rp t)
          as (pol & res & Hpol & Hset & _);
        rewrite Hpol
    end.
    assert (Hpol_calls :
              forallb (fun c => negb (is_AddServer c)) (calls_of pol) = true).
    { apply forallb_forall. intros c Hin.
      rewrite Forall_forall in Hset. specialize (Hset c Hin).
      now destruct c. }
    destruct res as [e |]; cbn [snd app]; eexists;
      (split; [reflexivity |]); cbn [calls_of forallb is_AddServer negb andb];
      rewrite ?calls_of_app, ?forallb_app, Hpol_calls; reflexivity.
Qed.

Lemma X9_no_backend_witness :
  exists tail : Trace,
    snd (run {| remote := fun _ _ => None;
                config_file := fun _ => inl no_backend_config |})
    = Called (Ping sample_client) None
        :: Called (SetLoadBalancingAlgorithm sample_client "roundrobin") None
        :: tail
    /\ forallb (fun c => negb (is_AddServer c))
         (calls_of (snd (run {| remote := fun _ _ => None;
                                config_file := fun _ => inl no_backend_config |})))
       = true.
Proof.
  apply (X9_no_backend {| remote := fun _ _ => None;
                          config_file := fun _ => inl no_backend_config |}
           no_backend_config); reflexivity.
Defined.

Lemma main_backends_all_succeed (env : Env) (client : haproxy.HAProxy)
    (config : Config) :
  (forall h c, remote env h c = None) ->
  forall (backends : list BackendConfig) (t : Trace),
    main_backends client config backends env t
    = (Returned tt,
       t ++ flat_map
              (fun b => [Called (AddServer client (server_of config b)) None;
                         Printed (PrintServerAdded (Name b))])
              backends).
Proof.
  intros Hok. induction backends as [| b rest IH]; intros t.
  - cbn [main_backends flat_map]; step. now rewrite app_nil_r.
  - cbn [main_backends flat_map]; step.
    rewrite (addServerWithRetry_first_success env client
               (server_of config b) 3 t ltac:(lia) (Hok _ _)).
    cbn beta iota. rewrite IH, server_of_Name, <- !app_assoc. reflexivity.
Qed.

(** X10.  On a control plane that accepts every call, a run whose
    configuration loads returns (status 0) after the probe, one
    registration call per backend, each reported as added, the algorithm
    call and its line, the two settings and their line. *)
Theorem X10_all_succeed (env : Env) (config : Config) :
  (forall h c, remote env h c = None) ->
  config_file env "config.json" = inl config ->
  let client := client_of config in
  let rp := RetryPolicy config in
  run env
  = (Returned tt,
     Called (Ping client) None
       :: flat_map
            (fun b => [Called (AddServer client (server_of config b)) None;
                       Printed (PrintServerAdded (Name b))])
            (Backends config)
       ++ [Called (SetLoadBalancingAlgorithm client
                     (LoadBalancingAlgorithm config)) None;
           Printed (PrintAlgorithmSet (LoadBalancingAlgorithm config));
           Called (SetConfig client "retries" (Sprintf_d (Retries rp))) None;
           Called (SetConfig client "option redispatch"
                     (if Redispatch rp then "on" else "off")) None;
           Printed (PrintRetryPolicySet (Retries rp) (Redispatch rp))]).
Proof.
  intros Hok Hcfg client rp.
  unfold run, main, loadConfig, newHAProxyClient, setRetryPolicy; step.
  rewrite Hcfg, Hok. fold (client_of config). fold client.
  rewrite (main_backends_all_succeed env client config Hok).
  rewrite !Hok. fold rp. cbn [app]. now rewrite <- !app_assoc.
Qed.

Lemma X10_all_succeed_witness :
  run (env_ok false)
  = (Returned tt,
     [Called (Ping sample_client) None;
      Called (AddServer sample_client (server_of (sample_config false) server1))
        None;
      Printed (PrintServerAdded "server1");
      Called (AddServer sample_client (server_of (sample_config false) server2))
        None;
      Printed (PrintServerAdded "server2");
      Called (SetLoadBalancingAlgorithm sample_client "roundrobin") None;
      Printed (PrintAlgorithmSet "roundrobin");
      Called (SetConfig sample_client "retries" "3") None;
      Called (SetConfig sample_client "option redispatch" "on") None;
      Printed (PrintRetryPolicySet 3 true)]).
Proof.
  apply (X10_all_succeed (env_ok false) (sample_config false));
    reflexivity.
Defined.

(** X11.  A run returns (status 0) exactly when its configuration loads and
    no call other than a registration fails: failed registrations never
    change the exit status, and any other failure does. *)
Theorem X11_exit_status (env : Env) :
  fst (run env) = Returned tt
  <-> (exists config, config_file env "config.json" = inl config)
      /\ (forall c e, In (Called c (Some e)) (snd (run env)) ->
                      is_AddServer c = true).
Proof.
  assert (Hlast : forall (t : Trace) (c : Call) (e : error) (o : Output),
             In (Called c (Some e)) (t ++ [Called c (Some e); Printed o]))
    by (intros; apply in_or_app; right; now left).
  run_cases env; cbn [fst snd]; split;
    try (intros H; discriminate H).
  - intros [_ H]. specialize (H _ _ (or_introl eq_refl)). discriminate H.
  - intros [_ H]. specialize (H _ _ (Hlast _ _ _ _)). discriminate H.
  - intros [_ H]. specialize (H _ _ (Hlast _ _ _ _)). discriminate H.
  - intros [_ H].
    match type of H with
    | context [?t ++ [Called ?c1 None; Called ?c2 (Some ?e); Printed ?o]] =>
        specialize (H c2 e); discriminate H;
        apply in_or_app; right; right; now left
    end.
  - intros _. split; [eauto |]. intros c e Hin.
    split_in Hin; try discriminate.
    pose proof (registration_events_kind (client_of config) config
                  (Backends config) vs) as Hkind.
    rewrite Forall_forall in Hkind. specialize (Hkind _ Hin).
    destruct Hkind as (b & _ & ->). reflexivity.
  - reflexivity.
  - intros [[config' [=]] _].
Qed.

(** X12.  A run ends in one of two ways: it exits with status 1 and a fatal
    log is its last event, the only fatal log of the trace, so that nothing
    is called or printed after it; or it returns and the trace holds no
    fatal log. *)
Theorem X12_fatal_log_is_last (env : Env) :
  (fst (run env) = Exited 1
   /\ exists (t : Trace) (site : FatalSite) (err : error),
        snd (run env) = t ++ [Printed (LogFatal site err)]
        /\ forallb (fun ev => negb (is_fatal ev)) t = true)
  \/ (fst (run env) = Returned tt
      /\ forallb (fun ev => negb (is_fatal ev)) (snd (run env)) = true).
Proof.
  run_cases env; cbn [fst snd];
    [left | left | left | left | right | left]; (split; [reflexivity |]);
    try match goal with
      | |- exists _ _ _, ?T ++ [?a; Printed (LogFatal ?s ?e)] = _ /\ _ =>
          exists (T ++ [a]), s, e
      | |- exists _ _ _, ?T ++ [?a; ?b; Printed (LogFatal ?s ?e)] = _ /\ _ =>
          exists (T ++ [a; b]), s, e
      | |- exists _ _ _, [?a; Printed (LogFatal ?s ?e)] = _ /\ _ =>
          exists [a], s, e
      | |- exists _ _ _, [Printed (LogFatal ?s ?e)] = _ /\ _ =>
          exists [], s, e
      end;
    rewrite <- ?app_assoc; try (split; [reflexivity |]);
    rewrite ?forallb_app; cbn [forallb is_fatal negb andb];
    rewrite ?registration_events_not_fatal; reflexivity.
Qed.

(** X13.  No failure is swallowed: for every call of a run that fails, the
    run prints a line that shows its error, the failure line of the attempt
    for a registration, the fatal log for any other call. *)
Theorem X13_failures_are_reported (env : Env) (c : Call) (e : error) :
  In (Called c (Some e)) (snd (run env)) ->
  exists o, In o (outputs_of (snd (run env))) /\ reports o e.
Proof.
  intros Hin.
  assert (Hreg : forall client config backends vs,
             In (Called c (Some e))
               (registration_events client config backends vs) ->
             exists o,
               In (Printed o) (registration_events client config backends vs)
               /\ reports o e).
  { intros client config backends vs H.
    destruct (In_registration_events _ _ _ _ _ H) as (b & v & _ & Hev & Hincl).
    destruct (In_verdict_events _ _ _ _ _ Hev)
      as [(e' & a & Hp & [Heq | Heq]) | [(_ & [Heq | Heq]) | (err & Heq)]];
      try discriminate.
    injection Heq as _ <-.
    exists (PrintAddFailed (Name b) a 3 e). split; [now apply Hincl | reflexivity]. }
  run_cases env; cbn [snd] in *; split_in Hin; try discriminate;
    try (apply Hreg in Hin; destruct Hin as (o & Ho & Hrep); exists o;
         split; [| exact Hrep]; apply In_outputs_of;
         rewrite ?in_app_iff; cbn [In]; tauto);
    injection Hin as <- <-;
    eexists (LogFatal _ _);
    (split; [apply In_outputs_of; rewrite ?in_app_iff; cbn [In]; tauto |]);
    cbn; auto.
Qed.

Lemma X13_failures_are_reported_witness :
  exists o, In o (outputs_of (snd (run env_redispatch_fails)))
            /\ reports o refused.
Proof.
  apply (X13_failures_are_reported env_redispatch_fails
           (SetConfig sample_client "option redispatch" "on") refused).
  vm_compute. do 8 right. left. reflexivity.
Defined.

(** X14.  The registration loop returns for every list of backends, and
    its trace is, backend after backend in declared order: the failed
    attempts, numbered from 1 out of 3, followed either by the successful
    call and the line that reports the server as added (after two failures
    at most), or, after three failures, by the log of the final failure,
    whose error wraps the third failure. *)
Theorem X14_registration_trace (env : Env) (client : haproxy.HAProxy)
    (config : Config) (backends : list BackendConfig) (t : Trace) :
  exists vs : list Verdict,
    List.length vs = List.length backends
    /\ Forall verdict_ok vs
    /\ main_backends client config backends env t
       = (Returned tt, t ++ registration_events client config backends vs).
Proof. apply main_backends_trace. Qed.

(** X15.  In a run that passes the probe, every declared backend gets
    exactly one verdict, added or finally failed, and the verdicts come in
    the declared order. *)
Theorem X15_one_verdict_per_backend (env : Env) (config : Config) :
  config_file env "config.json" = inl config ->
  remote env [] (Ping (client_of config)) = None ->
  flat_map verdict_on (outputs_of (snd (run env)))
  = map Name (Backends config).
Proof.
  intros Hcfg Hp.
  run_cases env; try discriminate; injection Hcfg as <-;
    try (rewrite Hp in Hping; discriminate);
    cbn [snd]; rewrite ?app_comm_cons, !outputs_of_app, !flat_map_app;
    cbn [outputs_of]; rewrite verdict_on_registration_events by exact Hlen;
    cbn; now rewrite ?app_nil_r.
Qed.

Lemma X15_one_verdict_per_backend_witness :
  flat_map verdict_on (outputs_of (snd (run env_server1_down)))
  = ["server1"; "server2"]%string.
Proof.
  apply (X15_one_verdict_per_backend env_server1_down (sample_config true));
    reflexivity.
Defined.

(** X16.  A success line is printed only after the success it reports: a
    server is reported as added only after a registration call for a server
    of that name succeeded, the algorithm is reported as set only after its
    call succeeded, and the retry policy is reported as set only in a run
    in which both settings succeeded, which then returns. *)
Theorem X16_success_lines (env : Env) :
  (forall name,
      In (PrintServerAdded name) (outputs_of (snd (run env))) ->
      exists client s,
        In (Called (AddServer client s) None) (snd (run env))
        /\ haproxy.Name s = name)
  /\ (forall algorithm,
         In (PrintAlgorithmSet algorithm) (outputs_of (snd (run env))) ->
         exists client,
           In (Called (SetLoadBalancingAlgorithm client algorithm) None)
             (snd (run env)))
  /\ (forall retries redispatch,
         In (PrintRetryPolicySet retries redispatch)
            (outputs_of (snd (run env))) ->
         fst (run env) = Returned tt
         /\ exists client v1 v2,
              In (Called (SetConfig client "retries" v1) None) (snd (run env))
              /\ In (Called (SetConfig client "option redispatch" v2) None)
                   (snd (run env))).
Proof.
  assert (Hreg : forall client config backends vs o,
             In (Printed o) (registration_events client config backends vs) ->
             match o with
             | PrintServerAdded name =>
                 exists s,
                   In (Called (AddServer client s) None)
                     (registration_events client config backends vs)
                   /\ haproxy.Name s = name
             | PrintAlgorithmSet _ | PrintRetryPolicySet _ _ => False
             | _ => True
             end).
  { intros client config backends vs o H.
    destruct (In_registration_events _ _ _ _ _ H) as (b & v & _ & Hev & Hincl).
    destruct (In_verdict_events _ _ _ _ _ Hev)
      as [(e' & a & Hp & [Heq | Heq]) | [(Hc & [Heq | Heq]) | (err & Heq)]];
      try discriminate; injection Heq as ->; try exact I.
    exists (server_of config b). split; [now apply Hincl |].
    apply server_of_Name. }
  split; [| split]; intros *; intros Hin; apply In_outputs_of in Hin;
    run_cases env; cbn [fst snd] in *; split_in Hin; try discriminate;
    first
      [ apply Hreg in Hin; cbn beta iota in Hin;
        first
          [ contradiction
          | destruct Hin as (s & Hs & Hname); exists (client_of config), s;
            split; [rewrite ?in_app_iff; cbn [In]; tauto | exact Hname] ]
      | injection Hin as <-; exists (client_of config);
        rewrite ?in_app_iff; cbn [In]; tauto
      | injection Hin as <- <-; split; [reflexivity |];
        exists (client_of config); do 2 eexists;
        rewrite ?in_app_iff; cbn [In]; split; eauto 12 ].
Qed.

(** With health checking enabled the three fields are written, after the
    five of the literal. *)
Example health_fields_written_when_enabled :
  server_writes (sample_config true) server1
  = [ (FName, VString "server1"); (FIP, VString "192.168.1.101");
      (FPort, VInt 80); (FWeight, VInt 10); (FCheck, VBool true);
      (FInter, VString "5s"); (FFall, VInt 3); (FRise, VInt 2) ].
Proof. reflexivity. Qed.
